(** * ADVI (ajax/advi.py): a shallow embedding and its specification

    The class [ADVI] of [ajax/advi.py] is embedded method by method.
    A Python object is a store of attributes that [__init__] fills in one
    assignment at a time, so an instance is a record of optional
    attributes and every method is a computation in a state-and-exception
    monad over that record.

    The module imports its numerical machinery: [ajax.base], [ajax.utils],
    [jax] and [tensorflow_probability].  Those collaborators are collected
    in the interface [Externals]; they are taken as functions that return,
    so the exceptions of the model are exactly the ones that the
    statements of [advi.py] raise themselves: a failed [assert], a missing
    dictionary key, a missing attribute. *)

From stdpp Require Import base strings gmap list.

Set Default Proof Using "Type".
Set Warnings "-register-all".

(** ** Exceptions and results *)

Inductive exn : Type :=
  | AssertionError (msg : string)
  | KeyError (key : string)
  | AttributeError (name : string).

Inductive result (A : Type) : Type :=
  | Ok (a : A)
  | Err (e : exn).
Arguments Ok {A} a.
Arguments Err {A} e.

#[global] Instance exn_eq_dec : EqDecision exn.
Proof. solve_decision. Defined.

(** ** Pytrees

    [prior], [bijector] and the sample trees are dictionaries whose values
    are leaves or dictionaries again.  [jax.tree_map] is called with
    [is_leaf] recognising the distributions, so a distribution is a leaf
    although TFP registers it as a container. *)

Inductive pytree (A : Type) : Type :=
  | Leaf (a : A)
  | Dict (children : gmap string (pytree A)).
Arguments Leaf {A} a.
Arguments Dict {A} children.

(** [jax.tree_map f tree] *)
Fixpoint tree_map {A B} (f : A → B) (t : pytree A) : pytree B :=
  match t with
  | Leaf a => Leaf (f a)
  | Dict m => Dict (tree_map f <$> m)
  end.

(** [jax.tree_leaves tree].  The leaves come in the traversal order of
    the finite map; the only consumer below is [sum], which does not
    depend on the order. *)
Fixpoint tree_leaves {A} (t : pytree A) : list A :=
  match t with
  | Leaf a => [a]
  | Dict m => map_fold (λ _ c acc, tree_leaves c ++ acc) [] m
  end.

(** Number of dictionary nodes and leaves, the measure for induction. *)
Fixpoint tree_size {A} (t : pytree A) : nat :=
  match t with
  | Leaf _ => 1
  | Dict m => S (map_fold (λ _ c acc, tree_size c + acc) 0 m)
  end.

(** ** The collaborators of [advi.py] *)

Class Externals : Type := {
  (** objects of the libraries *)
  Distribution : Type;      (* tfd.Distribution *)
  Bijector : Type;          (* tfb.Bijector *)
  PRNGKey : Type;           (* jax.random.PRNGKey *)
  Array : Type;             (* jax arrays, scalars included *)
  Value : Type;             (* an entry of the [params] dictionary *)
  ParamsBijector : Type;    (* third component of a builder's result *)
  Initializer : Type;       (* jax.nn.initializers.* *)
  Aux : Type;               (* the [aux] argument of the likelihood *)
  Datum : Type;             (* one element of a batch *)
  (** tfd.Distribution *)
  batch_shape : Distribution → list nat;
  sample : Distribution → PRNGKey → Array;
  log_prob : Distribution → Array → Array;
  (** ajax.base *)
  inverse_transform_dist :
    gmap string (pytree Distribution) → gmap string (pytree Bijector) →
    pytree Distribution;
  transform_tree :
    pytree Array → gmap string (pytree Bijector) → pytree Array;
  transform_dist_params : Value → ParamsBijector → Distribution;
  log_prob_dist : pytree Distribution → pytree Array → Array;
  get_mean_field :
    pytree Distribution → option (list Bijector) →
    Distribution * (Array → pytree Array) * ParamsBijector;
  get_low_rank :
    pytree Distribution → option Z → option (list Bijector) →
    Distribution * (Array → pytree Array) * ParamsBijector;
  get_full_rank :
    pytree Distribution → option (list Bijector) →
    Distribution * (Array → pytree Array) * ParamsBijector;
  (** ajax.utils *)
  initialize_params : Distribution → PRNGKey → Initializer → Value;
  (** jax *)
  initializers_normal : Initializer;          (* jax.nn.initializers.normal() *)
  random_split : PRNGKey → nat → list PRNGKey; (* jax.random.split *)
  random_split_length k n : length (random_split k n) = n;
  (** arithmetic of arrays; a Python [int] operand is promoted *)
  array_of_nat : nat → Array;
  array_sub : Array → Array → Array;
  array_mul : Array → Array → Array;
  array_div : Array → Array → Array;
  array_mean : list Array → Array;            (* [.mean()] of the stacked losses *)
}.

(** Modelled from the spec: the class [Posterior] of [ajax.base], which
    [advi.py] only instantiates.  The spec describes it as the bundle of
    the fitted surrogate distribution, the ApproxNormalPrior and the
    original Bijector, in the order of the constructor call. *)
Record Posterior `{Externals} : Type := mkPosterior {
  Posterior_posterior : Distribution;
  Posterior_approx_normal_prior : pytree Distribution;
  Posterior_bijector : gmap string (pytree Bijector);
}.

Declare Scope array_scope.
Delimit Scope array_scope with arr.
Infix "-" := array_sub : array_scope.
Infix "*" := array_mul : array_scope.
Infix "/" := array_div : array_scope.

Section ADVI.
Context `{E : Externals}.

(** Type of the user's likelihood:
    [get_log_likelihood(transformed_params, aux, batch, **params)] *)
Definition likelihood : Type :=
  pytree Array → Aux → list Datum → gmap string Value → Array.

(** ** The instance: one optional slot per attribute that [__init__] may
    assign *)
Record ADVI : Type := mkADVI {
  self_prior : option (gmap string (pytree Distribution));
  self_bijector : option (gmap string (pytree Bijector));
  self_get_log_likelihood : option likelihood;
  self_vi_type : option string;
  self_approx_normal_prior : option (pytree Distribution);
  self_posterior : option Distribution;
  self_unravel_fn : option (Array → pytree Array);
  self_posterior_params_bijector : option ParamsBijector;
}.

(** The object as [object.__new__] hands it to [__init__]. *)
Definition fresh : ADVI :=
  mkADVI None None None None None None None None.

(** ** The monad of methods: the instance is threaded, an exception
    keeps the assignments made before it *)
Definition M (A : Type) : Type := ADVI → result A * ADVI.

#[global] Instance M_ret : MRet M := λ A a self, (Ok a, self).
#[global] Instance M_bind : MBind M := λ A B f m self,
  match m self with
  | (Ok a, self') => f a self'
  | (Err e, self') => (Err e, self')
  end.

Definition raise {A} (e : exn) : M A := λ self, (Err e, self).

(** [assert cond, msg] *)
Definition assert (cond : bool) (msg : string) : M unit :=
  if cond then mret () else raise (AssertionError msg).

(** [self.name] *)
Definition getattr {A} (name : string) (slot : ADVI → option A) : M A :=
  λ self, match slot self with
          | Some v => (Ok v, self)
          | None => (Err (AttributeError name), self)
          end.

(** [d[key]] on a dictionary *)
Definition getitem {A} (d : gmap string A) (key : string) : M A :=
  match d !! key with
  | Some v => mret v
  | None => raise (KeyError key)
  end.

(** [self.name = v], one setter per attribute *)
Definition set_prior v : M unit := λ s,
  (Ok (), mkADVI (Some v) (self_bijector s) (self_get_log_likelihood s)
     (self_vi_type s) (self_approx_normal_prior s) (self_posterior s)
     (self_unravel_fn s) (self_posterior_params_bijector s)).
Definition set_bijector v : M unit := λ s,
  (Ok (), mkADVI (self_prior s) (Some v) (self_get_log_likelihood s)
     (self_vi_type s) (self_approx_normal_prior s) (self_posterior s)
     (self_unravel_fn s) (self_posterior_params_bijector s)).
Definition set_get_log_likelihood v : M unit := λ s,
  (Ok (), mkADVI (self_prior s) (self_bijector s) (Some v)
     (self_vi_type s) (self_approx_normal_prior s) (self_posterior s)
     (self_unravel_fn s) (self_posterior_params_bijector s)).
Definition set_vi_type v : M unit := λ s,
  (Ok (), mkADVI (self_prior s) (self_bijector s) (self_get_log_likelihood s)
     (Some v) (self_approx_normal_prior s) (self_posterior s)
     (self_unravel_fn s) (self_posterior_params_bijector s)).
Definition set_approx_normal_prior v : M unit := λ s,
  (Ok (), mkADVI (self_prior s) (self_bijector s) (self_get_log_likelihood s)
     (self_vi_type s) (Some v) (self_posterior s)
     (self_unravel_fn s) (self_posterior_params_bijector s)).
Definition set_posterior v : M unit := λ s,
  (Ok (), mkADVI (self_prior s) (self_bijector s) (self_get_log_likelihood s)
     (self_vi_type s) (self_approx_normal_prior s) (Some v)
     (self_unravel_fn s) (self_posterior_params_bijector s)).
Definition set_unravel_fn v : M unit := λ s,
  (Ok (), mkADVI (self_prior s) (self_bijector s) (self_get_log_likelihood s)
     (self_vi_type s) (self_approx_normal_prior s) (self_posterior s)
     (Some v) (self_posterior_params_bijector s)).
Definition set_posterior_params_bijector v : M unit := λ s,
  (Ok (), mkADVI (self_prior s) (self_bijector s) (self_get_log_likelihood s)
     (self_vi_type s) (self_approx_normal_prior s) (self_posterior s)
     (self_unravel_fn s) (Some v)).

(** [jax.vmap(f)(xs)]: [f] on every row of the leading axis *)
Definition vmap {A B} (f : A → M B) (xs : list A) : M (list B) := mapM f xs.

(** ** [ADVI.check_prior_zero_batch] *)
Definition check_prior_zero_batch : M unit :=
  prior ← getattr "prior" self_prior;
  let batch_lens := tree_map (λ x, length (batch_shape x)) (Dict prior) in
  assert (bool_decide (sum_list (tree_leaves batch_lens) = 0))
    "The prior distributions must have no batch dimension.".

(** [rank is not None] *)
Definition is_not_None {A} (o : option A) : bool :=
  match o with Some _ => true | None => false end.

(** ** [ADVI.__init__]

    The defaults of the signature are [vi_type="mean_field"], [rank=None]
    and [ordered_posterior_bijectors=None]; a caller that omits them
    passes these values. *)
Definition __init__
    (prior : gmap string (pytree Distribution))
    (bijector : gmap string (pytree Bijector))
    (get_log_likelihood : likelihood)
    (vi_type : string) (rank : option Z)
    (ordered_posterior_bijectors : option (list Bijector)) : M unit :=
  assert (bool_decide (dom bijector = dom prior))
    "The keys in `prior` and `bijector` must be the same.";;
  set_prior prior;;
  check_prior_zero_batch;;
  assert (eqb (bool_decide (vi_type = "low_rank")) (is_not_None rank))
    "`rank` must be specified only if `vi_type` is `low_rank`.";;
  set_bijector bijector;;
  set_get_log_likelihood get_log_likelihood;;
  set_vi_type vi_type;;
  p ← getattr "prior" self_prior;
  b ← getattr "bijector" self_bijector;
  set_approx_normal_prior (inverse_transform_dist p b);;
  if bool_decide (vi_type = "mean_field") then
    anp ← getattr "approx_normal_prior" self_approx_normal_prior;
    let '(posterior, unravel_fn, posterior_params_bijector) :=
      get_mean_field anp ordered_posterior_bijectors in
    set_posterior posterior;;
    set_unravel_fn unravel_fn;;
    set_posterior_params_bijector posterior_params_bijector
  else if bool_decide (vi_type = "low_rank") then
    anp ← getattr "approx_normal_prior" self_approx_normal_prior;
    let '(posterior, unravel_fn, posterior_params_bijector) :=
      get_low_rank anp rank ordered_posterior_bijectors in
    set_posterior posterior;;
    set_unravel_fn unravel_fn;;
    set_posterior_params_bijector posterior_params_bijector
  else if bool_decide (vi_type = "full_rank") then
    anp ← getattr "approx_normal_prior" self_approx_normal_prior;
    let '(posterior, unravel_fn, posterior_params_bijector) :=
      get_full_rank anp ordered_posterior_bijectors in
    set_posterior posterior;;
    set_unravel_fn unravel_fn;;
    set_posterior_params_bijector posterior_params_bijector
  else mret ().

(** The call [ADVI(prior, bijector, ...)]: a fresh object is initialised
    and returned unless [__init__] raises. *)
Definition new prior bijector get_log_likelihood vi_type rank
    ordered_posterior_bijectors : result ADVI :=
  match __init__ prior bijector get_log_likelihood vi_type rank
          ordered_posterior_bijectors fresh with
  | (Ok _, self) => Ok self
  | (Err e, _) => Err e
  end.

(** ** [ADVI.init]; [None] stands for an omitted [initializer] *)
Definition init (seed : PRNGKey) (initializer : option Initializer)
    : M (gmap string Value) :=
  let initializer := default initializers_normal initializer in
  posterior ← getattr "posterior" self_posterior;
  mret {[ "posterior" := initialize_params posterior seed initializer ]}.

(** ** [loss_fn_per_sample], the closure of [ADVI.loss_fn]; the variables
    it captures are its first arguments *)
Definition loss_fn_per_sample (posterior : Distribution)
    (params : gmap string Value) (batch : list Datum) (aux : Aux)
    (data_size : Array) (seed : PRNGKey) : M Array :=
  let sample := sample posterior seed in
  let q_log_prob := log_prob posterior sample in
  unravel_fn ← getattr "unravel_fn" self_unravel_fn;
  let sample_tree := unravel_fn sample in
  approx_normal_prior ← getattr "approx_normal_prior" self_approx_normal_prior;
  let p_log_prob := log_prob_dist approx_normal_prior sample_tree in
  bijector ← getattr "bijector" self_bijector;
  let transformed_sample_tree := transform_tree sample_tree bijector in
  get_log_likelihood ← getattr "get_log_likelihood" self_get_log_likelihood;
  let log_likelihood :=
    get_log_likelihood transformed_sample_tree aux batch params in
  let log_likelihood :=
    ((log_likelihood / array_of_nat (length batch)) * data_size)%arr in
  mret ((q_log_prob - p_log_prob - log_likelihood) / data_size)%arr.

(** ** [ADVI.loss_fn]; [None] stands for an omitted [n_samples] *)
Definition loss_fn (params : gmap string Value) (batch : list Datum)
    (aux : Aux) (data_size : Array) (seed : PRNGKey)
    (n_samples : option nat) : M Array :=
  let n_samples := default 1 n_samples in
  posterior ← getitem params "posterior";
  posterior_params_bijector ←
    getattr "posterior_params_bijector" self_posterior_params_bijector;
  let posterior := transform_dist_params posterior posterior_params_bijector in
  let seeds := random_split seed n_samples in
  losses ← vmap (loss_fn_per_sample posterior params batch aux data_size) seeds;
  mret (array_mean losses).

(** ** [ADVI.apply] *)
Definition apply (params : gmap string Value) : M Posterior :=
  posterior ← getitem params "posterior";
  posterior_params_bijector ←
    getattr "posterior_params_bijector" self_posterior_params_bijector;
  let posterior := transform_dist_params posterior posterior_params_bijector in
  approx_normal_prior ← getattr "approx_normal_prior" self_approx_normal_prior;
  bijector ← getattr "bijector" self_bijector;
  mret (mkPosterior _ posterior approx_normal_prior bijector).

(** ** Names of the specification

    The specification calls the three construction-time failures
    KeyMismatchError, ZeroBatchViolation and RankSpecificationError; in
    [advi.py] they are the three [assert] statements, told apart by their
    messages. *)
Definition KeyMismatchError : exn :=
  AssertionError "The keys in `prior` and `bijector` must be the same.".
Definition ZeroBatchViolation : exn :=
  AssertionError "The prior distributions must have no batch dimension.".
Definition RankSpecificationError : exn :=
  AssertionError "`rank` must be specified only if `vi_type` is `low_rank`.".

(** Sum of the batch ranks of all distribution leaves of the prior. *)
Definition batch_rank_sum (prior : gmap string (pytree Distribution)) : nat :=
  sum_list_with (λ d, length (batch_shape d)) (tree_leaves (Dict prior)).

(** Every distribution leaf of the prior has an empty batch shape. *)
Definition zero_batch (prior : gmap string (pytree Distribution)) : Prop :=
  Forall (λ d, batch_shape d = []) (tree_leaves (Dict prior)).

(** [rank] is given exactly when [vi_type] is ["low_rank"]. *)
Definition rank_consistent (vi_type : string) (rank : option Z) : Prop :=
  vi_type = "low_rank" ↔ rank ≠ None.

(** The three families for which [__init__] has a builder. *)
Definition supported (vi_type : string) : Prop :=
  vi_type = "mean_field" ∨ vi_type = "low_rank" ∨ vi_type = "full_rank".

(** The builder that [__init__] selects for [vi_type], when it has one. *)
Definition builder (vi_type : string) (rank : option Z)
    (ordered_posterior_bijectors : option (list Bijector))
    (anp : pytree Distribution)
    : option (Distribution * (Array → pytree Array) * ParamsBijector) :=
  if bool_decide (vi_type = "mean_field") then
    Some (get_mean_field anp ordered_posterior_bijectors)
  else if bool_decide (vi_type = "low_rank") then
    Some (get_low_rank anp rank ordered_posterior_bijectors)
  else if bool_decide (vi_type = "full_rank") then
    Some (get_full_rank anp ordered_posterior_bijectors)
  else None.

(** The instance that a successful construction leaves behind. *)
Definition constructed prior bijector get_log_likelihood vi_type rank
    ordered_posterior_bijectors : ADVI :=
  let anp := inverse_transform_dist prior bijector in
  let built := builder vi_type rank ordered_posterior_bijectors anp in
  mkADVI (Some prior) (Some bijector) (Some get_log_likelihood)
    (Some vi_type) (Some anp)
    (fst ∘ fst <$> built) (snd ∘ fst <$> built) (snd <$> built).

(** The per-sample loss as the specification writes it. *)
Definition per_sample_loss (q_log_prob p_log_prob log_likelihood : Array)
    (batch_size : nat) (data_size : Array) : Array :=
  let log_likelihood_scaled :=
    ((log_likelihood / array_of_nat batch_size) * data_size)%arr in
  ((q_log_prob - p_log_prob - log_likelihood_scaled) / data_size)%arr.

(** The per-sample loss at a sub-seed, written out: what
    [loss_fn_per_sample] computes from the realised surrogate [posterior]
    on an instance with the given attributes. *)
Definition sample_loss (unravel_fn : Array → pytree Array)
    (approx_normal_prior : pytree Distribution)
    (bijector : gmap string (pytree Bijector))
    (get_log_likelihood : likelihood) (posterior : Distribution)
    (params : gmap string Value) (batch : list Datum) (aux : Aux)
    (data_size : Array) (seed : PRNGKey) : Array :=
  let z := sample posterior seed in
  per_sample_loss
    (log_prob posterior z)
    (log_prob_dist approx_normal_prior (unravel_fn z))
    (get_log_likelihood (transform_tree (unravel_fn z) bijector)
       aux batch params)
    (length batch) data_size.

End ADVI.

(** ** A concrete interpretation of the collaborators

    Arrays are integers, a distribution is a batch shape with a location,
    a bijector is a shift.  It serves to run the model on examples. *)
Module Fixture.

Record dist : Type := mkDist { dist_batch : list nat; dist_loc : Z }.

Definition builder_of (scale : Z) (anp : pytree dist)
    : dist * (Z → pytree Z) * Z :=
  (mkDist [] (foldr Z.add 0%Z (dist_loc <$> tree_leaves anp)),
   λ z, Dict {[ "theta" := Leaf z ]},
   scale).

Definition shift_tree (b : gmap string (pytree Z)) (t : pytree Z) : pytree Z :=
  tree_map (λ z, z + Z.of_nat (size b))%Z t.

#[export] Program Instance externals : Externals := {|
  Distribution := dist;
  Bijector := Z;
  PRNGKey := nat;
  Array := Z;
  Value := Z;
  ParamsBijector := Z;
  Initializer := Z;
  Aux := Z;
  Datum := Z;
  batch_shape := dist_batch;
  sample d k := (dist_loc d + Z.of_nat k)%Z;
  log_prob d x := (x - dist_loc d)%Z;
  inverse_transform_dist p b := Dict p;
  transform_tree t b := shift_tree b t;
  transform_dist_params v pb := mkDist [] (v * pb)%Z;
  log_prob_dist anp t := Z.of_nat (length (tree_leaves t));
  get_mean_field anp opb := builder_of 1 anp;
  get_low_rank anp rank opb := builder_of (default 2%Z rank) anp;
  get_full_rank anp opb := builder_of 3 anp;
  initialize_params d k i := (dist_loc d + Z.of_nat k + i)%Z;
  initializers_normal := 0%Z;
  random_split k n := (λ i, S k + i) <$> seq 0 n;
  array_of_nat := Z.of_nat;
  array_sub := Z.sub;
  array_mul := Z.mul;
  array_div := Z.div;
  array_mean l := (foldr Z.add 0 l / Z.of_nat (length l))%Z;
|}.
Next Obligation. intros k n. cbn. by rewrite length_fmap, length_seq. Qed.

(** The coin-toss model of the docstring: one scalar parameter. *)
Definition coin_prior : gmap string (pytree dist) :=
  {[ "p_of_head" := Leaf (mkDist [] 5) ]}.
Definition coin_bijector : gmap string (pytree Z) :=
  {[ "p_of_head" := Leaf 1%Z ]}.
Definition coin_log_likelihood : likelihood :=
  λ t aux batch params,
    (foldr Z.add 0 (tree_leaves t) + aux + foldr Z.add 0 batch
     + Z.of_nat (size params))%Z.

(** A prior with a batch dimension, and a bijector for another key. *)
Definition batched_prior : gmap string (pytree dist) :=
  {[ "p_of_head" := Leaf (mkDist [3] 5) ]}.
Definition other_bijector : gmap string (pytree Z) :=
  {[ "scale" := Leaf 1%Z ]}.

(** The mean-field instance of the coin-toss model and what its builder
    returned. *)
Definition coin_advi : ADVI :=
  constructed coin_prior coin_bijector coin_log_likelihood "mean_field"
    None None.
Definition coin_posterior : dist := mkDist [] 5.
Definition coin_unravel_fn : Z → pytree Z :=
  λ z, Dict {[ "theta" := Leaf z ]}.

(** Fitted parameters, a batch of three observations. *)
Definition fitted : gmap string Z := {[ "posterior" := 2%Z ]}.
Definition tosses : list Z := [1; 2; 3]%Z.

(** A prior with a batched distribution one level down, on an instance
    that has only this attribute. *)
Definition nested_prior : gmap string (pytree dist) :=
  {[ "group" := Dict {[ "rate" := Leaf (mkDist [2; 3] 1) ]} ]}.
Definition nested_advi : ADVI :=
  mkADVI (Some nested_prior) None None None None None None None.

(** The rank-2 low-rank instance of the coin-toss model, and the
    mean-field instance after an assignment to [self.posterior]. *)
Definition low_rank_advi : ADVI :=
  constructed coin_prior coin_bijector coin_log_likelihood "low_rank"
    (Some 2%Z) None.
Definition retemplated_advi : ADVI :=
  snd (set_posterior (mkDist [] 9) coin_advi).

(** The coin-toss model with a likelihood that looks at the sample tree,
    [aux] and the batch, and at no keyword argument. *)
Definition plain_log_likelihood : likelihood :=
  λ t aux batch _, (foldr Z.add 0 (tree_leaves t) + aux + foldr Z.add 0 batch)%Z.
Definition plain_advi : ADVI :=
  constructed coin_prior coin_bijector plain_log_likelihood "mean_field"
    None None.

End Fixture.

(** ** Views of a pytree and of an instance *)

(** [tree[k1][k2]...]: the subtree under a path of keys, [None] when a
    key is missing or a leaf is indexed. *)
Fixpoint tree_lookup {A} (path : list string) (t : pytree A)
    : option (pytree A) :=
  match path with
  | [] => Some t
  | key :: path =>
      match t with
      | Leaf _ => None
      | Dict m => m !! key ≫= tree_lookup path
      end
  end.

Section views.
Context `{E : Externals}.

(** The three attributes that a builder assigns, when all are there. *)
Definition surrogate_attrs (self : ADVI)
    : option (Distribution * (Array → pytree Array) * ParamsBijector) :=
  posterior ← self_posterior self;
  unravel_fn ← self_unravel_fn self;
  posterior_params_bijector ← self_posterior_params_bijector self;
  Some (posterior, unravel_fn, posterior_params_bijector).

End views.

(** * Properties *)

(** ** Pytrees *)

Lemma tree_size_lookup {A} (m : gmap string (pytree A)) k c :
  m !! k = Some c → tree_size c < tree_size (Dict m).
Proof.
  cbn. revert k c.
  apply (map_fold_weak_ind
    (λ r m, ∀ k c, m !! k = Some c → tree_size c < S r)).
  - intros k c. by rewrite lookup_empty.
  - intros i x m' r _ IH k c. rewrite lookup_insert.
    case_decide; intros Hk; simplify_eq; [lia|].
    specialize (IH _ _ Hk). lia.
Qed.

(** Induction on pytrees: a dictionary has the property as soon as all
    its values have it. *)
Lemma pytree_ind' {A} (P : pytree A → Prop) :
  (∀ a, P (Leaf a)) →
  (∀ m, map_Forall (λ _, P) m → P (Dict m)) →
  ∀ t, P t.
Proof.
  intros Hleaf Hdict.
  assert (Hn : ∀ n t, tree_size t < n → P t).
  { induction n as [|n IH]; intros t Ht; [lia|].
    destruct t as [a|m]; [apply Hleaf|].
    apply Hdict. intros k c Hk. apply IH.
    pose proof (tree_size_lookup m k c Hk). lia. }
  intros t. apply (Hn (S (tree_size t))). lia.
Qed.

Lemma tree_leaves_Dict {A} (m : gmap string (pytree A)) :
  tree_leaves (Dict m) = mbind tree_leaves (snd <$> map_to_list m).
Proof.
  cbn. rewrite map_fold_foldr.
  induction (map_to_list m) as [|[k c] l IH]; [done|].
  cbn. by rewrite IH.
Qed.

Lemma tree_leaves_tree_map {A B} (f : A → B) (t : pytree A) :
  tree_leaves (tree_map f t) = f <$> tree_leaves t.
Proof.
  induction t as [a|m IH] using pytree_ind'; [done|].
  change (tree_map f (Dict m)) with (Dict (tree_map f <$> m)).
  rewrite !tree_leaves_Dict, map_to_list_fmap.
  apply map_Forall_to_list in IH.
  induction IH as [|[k c] l Hc _ IHl]; [done|].
  cbn in *. rewrite fmap_app. by f_equal.
Qed.


(** ** Construction *)

Section construction.
Context `{E : Externals}.

#[local] Arguments tree_map : simpl never.
#[local] Arguments tree_leaves : simpl never.

(** Runs the monadic steps of a method as far as they are determined. *)
Ltac run_method :=
  unfold assert, raise, getattr, getitem, set_prior, set_bijector,
    set_get_log_likelihood, set_vi_type, set_approx_normal_prior,
    set_posterior, set_unravel_fn, set_posterior_params_bijector;
  unfold mbind, M_bind, mret, M_ret; cbn.

Lemma sum_list_with_zero {A} (f : A → nat) (l : list A) :
  sum_list_with f l = 0 ↔ Forall (λ x, f x = 0) l.
Proof.
  induction l as [|x l IH]; cbn; [by split|].
  rewrite Forall_cons, <-IH. lia.
Qed.

Lemma batch_lens_sum (prior : gmap string (pytree Distribution)) :
  sum_list (tree_leaves
    (tree_map (λ x, length (batch_shape x)) (Dict prior)))
  = batch_rank_sum prior.
Proof.
  unfold batch_rank_sum. rewrite tree_leaves_tree_map.
  induction (tree_leaves (Dict prior)) as [|d l IH]; cbn; [done|].
  by rewrite IH.
Qed.

Lemma batch_rank_sum_zero (prior : gmap string (pytree Distribution)) :
  batch_rank_sum prior = 0 ↔ zero_batch prior.
Proof.
  unfold batch_rank_sum, zero_batch. rewrite sum_list_with_zero.
  apply Forall_iff. intros d. apply length_zero_iff_nil.
Qed.

Lemma new_eq prior bijector gll vi_type rank opb :
  new prior bijector gll vi_type rank opb =
  if bool_decide (dom bijector = dom prior) then
    if bool_decide (batch_rank_sum prior = 0) then
      if eqb (bool_decide (vi_type = "low_rank")) (is_not_None rank) then
        Ok (constructed prior bijector gll vi_type rank opb)
      else Err RankSpecificationError
    else Err ZeroBatchViolation
  else Err KeyMismatchError.
Proof.
  unfold new, __init__, check_prior_zero_batch.
  destruct (bool_decide (dom bijector = dom prior)); [|done].
  run_method. rewrite batch_lens_sum.
  destruct (bool_decide (batch_rank_sum prior = 0)); [|done].
  destruct (eqb _ _); [|done].
  run_method. unfold constructed, builder.
  destruct (bool_decide (vi_type = "mean_field")); cbn;
    [by destruct (get_mean_field _ _) as [[??]?]|].
  destruct (bool_decide (vi_type = "low_rank")); cbn;
    [by destruct (get_low_rank _ _ _) as [[??]?]|].
  destruct (bool_decide (vi_type = "full_rank")); cbn;
    [by destruct (get_full_rank _ _) as [[??]?]|].
  done.
Qed.

End construction.

(** ** The loss *)

Section loss.
Context `{E : Externals}.

Lemma vmap_nil {A B} (f : A → M B) self : vmap f [] self = (Ok [], self).
Proof. done. Qed.

Lemma vmap_cons {A B} (f : A → M B) x xs self :
  vmap f (x :: xs) self =
  match f x self with
  | (Ok y, self') =>
      match vmap f xs self' with
      | (Ok ys, self'') => (Ok (y :: ys), self'')
      | (Err e, self'') => (Err e, self'')
      end
  | (Err e, self') => (Err e, self')
  end.
Proof.
  unfold vmap. cbn. unfold mbind, M_bind at 1.
  destruct (f x self) as [[y|e] self']; [|done].
  unfold mbind, M_bind. by destruct (mapM f xs self') as [[ys|e] self''].
Qed.

(** A vectorised function that leaves the instance alone and returns
    [g] row by row returns the rows of [g]. *)
Lemma vmap_pure {A B} (f : A → M B) (g : A → B) xs self :
  (∀ x, x ∈ xs → f x self = (Ok (g x), self)) →
  vmap f xs self = (Ok (g <$> xs), self).
Proof.
  induction xs as [|x xs IH]; intros Hf; [done|].
  rewrite vmap_cons, Hf by left.
  rewrite IH; [done|]. intros y Hy. apply Hf. by right.
Qed.

(** Whatever it returns, a vectorised function that never assigns an
    attribute leaves the instance as it found it. *)
Lemma vmap_state {A B} (f : A → M B) xs self :
  (∀ x s, snd (f x s) = s) → snd (vmap f xs self) = self.
Proof.
  intros Hf. revert self. induction xs as [|x xs IH]; intros self; [done|].
  rewrite vmap_cons. specialize (Hf x self).
  destruct (f x self) as [[y|e] self']; cbn in Hf; subst; [|done].
  specialize (IH self).
  by destruct (vmap f xs self) as [[ys|e] self''].
Qed.

Lemma loss_fn_per_sample_run self unravel anp bij gll
    posterior params batch aux data_size seed :
  self_unravel_fn self = Some unravel →
  self_approx_normal_prior self = Some anp →
  self_bijector self = Some bij →
  self_get_log_likelihood self = Some gll →
  loss_fn_per_sample posterior params batch aux data_size seed self =
  (Ok (sample_loss unravel anp bij gll posterior params batch aux
         data_size seed), self).
Proof.
  intros Hu Ha Hb Hg.
  unfold loss_fn_per_sample, getattr, mbind, M_bind, mret, M_ret.
  by rewrite Hu, Ha, Hb, Hg.
Qed.

Lemma loss_fn_per_sample_state posterior params batch aux data_size seed self :
  snd (loss_fn_per_sample posterior params batch aux data_size seed self)
  = self.
Proof.
  unfold loss_fn_per_sample, getattr, mbind, M_bind, mret, M_ret.
  destruct (self_unravel_fn self); [|done].
  destruct (self_approx_normal_prior self); [|done].
  destruct (self_bijector self); [|done].
  by destruct (self_get_log_likelihood self).
Qed.

(** [loss_fn] after its two first statements: the vectorised closure and
    the mean. *)
Lemma loss_fn_unfold self params raw ppb batch aux data_size seed n_samples :
  params !! "posterior" = Some raw →
  self_posterior_params_bijector self = Some ppb →
  loss_fn params batch aux data_size seed n_samples self =
  match
    vmap (loss_fn_per_sample (transform_dist_params raw ppb) params batch
            aux data_size)
         (random_split seed (default 1 n_samples)) self
  with
  | (Ok losses, self') => (Ok (array_mean losses), self')
  | (Err e, self') => (Err e, self')
  end.
Proof.
  intros Hraw Hppb.
  unfold loss_fn, getitem, getattr. rewrite Hraw.
  unfold mbind, M_bind at 1, mret, M_ret.
  unfold mbind, M_bind at 1. rewrite Hppb.
  unfold mbind, M_bind. by destruct (vmap _ _ _) as [[?|?] ?].
Qed.

Lemma loss_fn_state params batch aux data_size seed n_samples self :
  snd (loss_fn params batch aux data_size seed n_samples self) = self.
Proof.
  destruct (params !! "posterior") as [raw|] eqn:Hraw;
    [|by unfold loss_fn, getitem; rewrite Hraw].
  destruct (self_posterior_params_bijector self) as [ppb|] eqn:Hppb.
  - rewrite (loss_fn_unfold _ _ _ _ _ _ _ _ _ Hraw Hppb).
    pose proof (vmap_state
      (loss_fn_per_sample (transform_dist_params raw ppb) params batch aux
         data_size)
      (random_split seed (default 1 n_samples)) self) as Hv.
    destruct (vmap _ _ _) as [[?|?] ?]; cbn in *;
      apply Hv; intros; apply loss_fn_per_sample_state.
  - unfold loss_fn, getitem, getattr. rewrite Hraw.
    unfold mbind, M_bind at 1, mret, M_ret.
    unfold mbind, M_bind at 1. by rewrite Hppb.
Qed.

Lemma loss_fn_run self unravel anp bij gll ppb params raw batch aux
    data_size seed n_samples :
  self_unravel_fn self = Some unravel →
  self_approx_normal_prior self = Some anp →
  self_bijector self = Some bij →
  self_get_log_likelihood self = Some gll →
  self_posterior_params_bijector self = Some ppb →
  params !! "posterior" = Some raw →
  loss_fn params batch aux data_size seed n_samples self =
  (Ok (array_mean
         (sample_loss unravel anp bij gll (transform_dist_params raw ppb)
            params batch aux data_size
          <$> random_split seed (default 1 n_samples))),
   self).
Proof.
  intros Hu Ha Hb Hg Hppb Hraw.
  rewrite (loss_fn_unfold _ _ _ _ _ _ _ _ _ Hraw Hppb).
  erewrite vmap_pure; [done|].
  intros s _. by apply loss_fn_per_sample_run.
Qed.

End loss.

(** ** What construction accepts and what it leaves behind *)

Section construction_facts.
Context `{E : Externals}.

Lemma rank_check_true vi_type (rank : option Z) :
  eqb (bool_decide (vi_type = "low_rank")) (is_not_None rank) = true
  ↔ rank_consistent vi_type rank.
Proof.
  unfold rank_consistent.
  case_bool_decide as Hv; destruct rank as [r|]; cbn; split;
    try done; try (intros _; split; done).
  - intros [H _]. by destruct (H Hv).
  - intros [_ H]. destruct Hv. by apply H.
Qed.

Lemma rank_check_false vi_type (rank : option Z) :
  eqb (bool_decide (vi_type = "low_rank")) (is_not_None rank) = false
  ↔ ¬ rank_consistent vi_type rank.
Proof.
  rewrite <-rank_check_true. by destruct (eqb _ _).
Qed.

Lemma new_Ok prior bijector gll vi_type rank opb self :
  new prior bijector gll vi_type rank opb = Ok self ↔
  dom bijector = dom prior ∧ batch_rank_sum prior = 0
  ∧ rank_consistent vi_type rank
  ∧ self = constructed prior bijector gll vi_type rank opb.
Proof.
  rewrite new_eq, <-rank_check_true.
  repeat case_bool_decide; destruct (eqb _ _); intuition congruence.
Qed.

Lemma new_Err prior bijector gll vi_type rank opb e :
  new prior bijector gll vi_type rank opb = Err e ↔
  (dom bijector ≠ dom prior ∧ e = KeyMismatchError)
  ∨ (dom bijector = dom prior ∧ batch_rank_sum prior ≠ 0
     ∧ e = ZeroBatchViolation)
  ∨ (dom bijector = dom prior ∧ batch_rank_sum prior = 0
     ∧ ¬ rank_consistent vi_type rank ∧ e = RankSpecificationError).
Proof.
  rewrite new_eq, <-rank_check_false.
  unfold KeyMismatchError, ZeroBatchViolation, RankSpecificationError.
  repeat case_bool_decide; destruct (eqb _ _); intuition congruence.
Qed.

Lemma builder_supported vi_type rank opb anp :
  supported vi_type → is_Some (builder vi_type rank opb anp).
Proof.
  unfold builder. intros [-> | [-> | ->]]; by repeat case_bool_decide.
Qed.

Lemma builder_unsupported vi_type rank opb anp :
  ¬ supported vi_type → builder vi_type rank opb anp = None.
Proof.
  unfold builder, supported. intros Hv.
  repeat case_bool_decide; intuition.
Qed.

Lemma init_run self posterior seed initializer :
  self_posterior self = Some posterior →
  init seed initializer self =
  (Ok {[ "posterior" :=
          initialize_params posterior seed
            (default initializers_normal initializer) ]}, self).
Proof.
  intros Hp. unfold init, getattr, mbind, M_bind. by rewrite Hp.
Qed.

Lemma apply_run self ppb anp bij params :
  self_posterior_params_bijector self = Some ppb →
  self_approx_normal_prior self = Some anp →
  self_bijector self = Some bij →
  apply params self =
  (match params !! "posterior" with
   | Some raw => Ok (mkPosterior _ (transform_dist_params raw ppb) anp bij)
   | None => Err (KeyError "posterior")
   end, self).
Proof.
  intros Hppb Hanp Hbij. unfold apply, getitem.
  destruct (params !! "posterior") as [raw|]; [|done].
  unfold getattr, mbind, M_bind, mret, M_ret. by rewrite Hppb, Hanp, Hbij.
Qed.

End construction_facts.

(** * The claims *)

Section claims_construction.
Context `{E : Externals}.

Lemma check_prior_zero_batch_run self prior :
  self_prior self = Some prior →
  check_prior_zero_batch self =
  (if bool_decide (batch_rank_sum prior = 0) then Ok ()
   else Err ZeroBatchViolation, self).
Proof.
  intros Hp. unfold check_prior_zero_batch, getattr, mbind, M_bind.
  rewrite Hp, batch_lens_sum. unfold assert.
  by case_bool_decide.
Qed.

(** C4.  Constructing [ADVI(prior, bijector, ...)] raises the
    KeyMismatchError exactly when the key set of [bijector] differs from
    the key set of [prior]; with identical key sets, a prior whose
    distributions have no batch dimension and a [rank] that is given
    exactly for ["low_rank"], construction succeeds for every [vi_type]. *)
Theorem new_KeyMismatchError_iff prior bijector get_log_likelihood vi_type
    rank ordered_posterior_bijectors :
  (new prior bijector get_log_likelihood vi_type rank
     ordered_posterior_bijectors = Err KeyMismatchError
   ↔ dom bijector ≠ dom prior)
  ∧ (dom bijector = dom prior → zero_batch prior →
     rank_consistent vi_type rank →
     new prior bijector get_log_likelihood vi_type rank
       ordered_posterior_bijectors
     = Ok (constructed prior bijector get_log_likelihood vi_type rank
             ordered_posterior_bijectors)).
Proof.
  split.
  - rewrite new_Err.
    unfold KeyMismatchError, ZeroBatchViolation, RankSpecificationError.
    intuition congruence.
  - intros Hk Hz Hr. apply new_Ok. by rewrite batch_rank_sum_zero.
Qed.

(** C5, as the code has it.  The key check comes first: construction
    raises the ZeroBatchViolation exactly when the key sets agree and the
    batch ranks of the prior's distribution leaves do not sum to zero.
    The check itself, [check_prior_zero_batch], fails exactly on a nonzero
    sum, and every prior whose leaves all have an empty batch shape passes
    it. *)
Theorem new_ZeroBatchViolation_iff prior bijector get_log_likelihood vi_type
    rank ordered_posterior_bijectors :
  (new prior bijector get_log_likelihood vi_type rank
     ordered_posterior_bijectors = Err ZeroBatchViolation
   ↔ dom bijector = dom prior ∧ batch_rank_sum prior ≠ 0)
  ∧ (∀ self, self_prior self = Some prior →
       (check_prior_zero_batch self = (Err ZeroBatchViolation, self)
        ↔ batch_rank_sum prior ≠ 0)
       ∧ (zero_batch prior → check_prior_zero_batch self = (Ok (), self))).
Proof.
  split.
  - rewrite new_Err.
    unfold KeyMismatchError, ZeroBatchViolation, RankSpecificationError.
    intuition congruence.
  - intros self Hp. rewrite (check_prior_zero_batch_run _ _ Hp).
    rewrite <-batch_rank_sum_zero.
    case_bool_decide; intuition congruence.
Qed.

(** C6, as the code has it.  The two earlier checks come first:
    construction raises the RankSpecificationError exactly when the key
    sets agree, the prior has no batch dimension and [rank] is not given
    exactly for ["low_rank"].  In every case a [rank] given with another
    [vi_type], or omitted with ["low_rank"], makes construction fail. *)
Theorem new_RankSpecificationError_iff prior bijector get_log_likelihood
    vi_type rank ordered_posterior_bijectors :
  (new prior bijector get_log_likelihood vi_type rank
     ordered_posterior_bijectors = Err RankSpecificationError
   ↔ dom bijector = dom prior ∧ batch_rank_sum prior = 0
     ∧ ¬ rank_consistent vi_type rank)
  ∧ ((vi_type ≠ "low_rank" ∧ rank ≠ None)
     ∨ (vi_type = "low_rank" ∧ rank = None) →
     ∃ e, new prior bijector get_log_likelihood vi_type rank
            ordered_posterior_bijectors = Err e).
Proof.
  split.
  - rewrite new_Err.
    unfold KeyMismatchError, ZeroBatchViolation, RankSpecificationError.
    intuition congruence.
  - intros Hbad.
    assert (¬ rank_consistent vi_type rank) as Hr
      by (unfold rank_consistent; intuition).
    destruct (new prior bijector get_log_likelihood vi_type rank
                ordered_posterior_bijectors) as [self|e] eqn:Hnew; [|eauto].
    apply new_Ok in Hnew. intuition.
Qed.

(** C10, as the code has it.  For a [vi_type] outside ["mean_field"],
    ["full_rank"], ["low_rank"] and [rank = None], construction succeeds
    as soon as the key sets agree and the prior has no batch dimension.
    The instance has no [posterior], [unravel_fn] or
    [posterior_params_bijector], and the first use of one of them fails:
    [init], [loss_fn] and [apply] raise an error. *)
Theorem new_unsupported_vi_type prior bijector get_log_likelihood vi_type
    ordered_posterior_bijectors :
  ¬ supported vi_type →
  dom bijector = dom prior →
  zero_batch prior →
  ∃ self,
    new prior bijector get_log_likelihood vi_type None
      ordered_posterior_bijectors = Ok self
    ∧ self_posterior self = None
    ∧ self_unravel_fn self = None
    ∧ self_posterior_params_bijector self = None
    ∧ (∀ seed initializer,
         init seed initializer self = (Err (AttributeError "posterior"), self))
    ∧ (∀ params batch aux data_size seed n_samples,
         loss_fn params batch aux data_size seed n_samples self =
         (Err (match params !! "posterior" with
               | Some _ => AttributeError "posterior_params_bijector"
               | None => KeyError "posterior"
               end), self))
    ∧ (∀ params,
         apply params self =
         (Err (match params !! "posterior" with
               | Some _ => AttributeError "posterior_params_bijector"
               | None => KeyError "posterior"
               end), self)).
Proof.
  intros Hv Hk Hz.
  exists (constructed prior bijector get_log_likelihood vi_type None
            ordered_posterior_bijectors).
  split.
  { apply new_Ok. rewrite batch_rank_sum_zero. repeat split; try done.
    intros ->. destruct Hv. right. by left. }
  unfold constructed. rewrite (builder_unsupported _ _ _ _ Hv). cbn.
  repeat split; try done.
  - intros params batch aux data_size seed n_samples.
    unfold loss_fn, getitem.
    by destruct (params !! "posterior").
  - intros params. unfold apply, getitem.
    by destruct (params !! "posterior").
Qed.

End claims_construction.

Section claims_methods.
Context `{E : Externals}.

Lemma constructed_attrs prior bijector gll vi_type rank opb self
    posterior unravel ppb :
  new prior bijector gll vi_type rank opb = Ok self →
  builder vi_type rank opb (inverse_transform_dist prior bijector)
  = Some (posterior, unravel, ppb) →
  self_bijector self = Some bijector
  ∧ self_get_log_likelihood self = Some gll
  ∧ self_approx_normal_prior self
    = Some (inverse_transform_dist prior bijector)
  ∧ self_posterior self = Some posterior
  ∧ self_unravel_fn self = Some unravel
  ∧ self_posterior_params_bijector self = Some ppb.
Proof.
  intros (_ & _ & _ & ->)%new_Ok Hb. unfold constructed. by rewrite Hb.
Qed.

Lemma vmap_Ok {A B} (f : A → M B) xs self ys self' :
  (∀ x s, snd (f x s) = s) →
  vmap f xs self = (Ok ys, self')
  ↔ self' = self ∧ Forall2 (λ x y, f x self = (Ok y, self)) xs ys.
Proof.
  intros Hf. revert ys. induction xs as [|x xs IH]; intros ys.
  - rewrite vmap_nil. split.
    + intros [= <- <-]. by split.
    + intros [-> Hys]. by inversion Hys.
  - rewrite vmap_cons. pose proof (Hf x self) as Hx.
    destruct (f x self) as [[y|e] s1] eqn:Hfx; cbn in Hx; subst s1.
    + pose proof (vmap_state f xs self Hf) as Hxs.
      destruct (vmap f xs self) as [[zs|e] s2] eqn:Hv; cbn in Hxs; subst s2.
      * split.
        -- intros [= <- <-]. split; [done|].
           constructor; [done|]. by apply IH.
        -- intros [-> Hys]. inversion Hys as [|? y' ? zs' Hy Hzs]; subst.
           rewrite Hfx in Hy. injection Hy as ->.
           apply (conj (eq_refl self)), IH in Hzs. by injection Hzs as ->.
      * split; [done|].
        intros [-> Hys]. inversion Hys as [|? y' ? zs' Hy Hzs]; subst.
        apply (conj (eq_refl self)), IH in Hzs. done.
    + split; [done|].
      intros [-> Hys]. inversion Hys as [|? y' ? zs' Hy Hzs]; subst.
      by rewrite Hfx in Hy.
Qed.

(** C1.  In every call of [loss_fn] each per-sample loss is
    [(q_log_prob - p_log_prob - log_likelihood_scaled) / data_size], where
    [log_likelihood_scaled = (log_likelihood / batch_size) * data_size],
    [batch_size] is the length of the batch, [q_log_prob] is the log
    density of the drawn sample under the surrogate and [p_log_prob] the
    log density of the unravelled sample under the approximate normal
    prior.  The closure returns this value whenever the attributes it
    reads are there, and returns nothing else. *)
Theorem loss_fn_per_sample_formula self posterior params batch aux
    data_size seed loss self' :
  loss_fn_per_sample posterior params batch aux data_size seed self
  = (Ok loss, self')
  ↔ self' = self
    ∧ ∃ unravel_fn approx_normal_prior bijector get_log_likelihood,
        self_unravel_fn self = Some unravel_fn
        ∧ self_approx_normal_prior self = Some approx_normal_prior
        ∧ self_bijector self = Some bijector
        ∧ self_get_log_likelihood self = Some get_log_likelihood
        ∧ let sample := sample posterior seed in
          let q_log_prob := log_prob posterior sample in
          let sample_tree := unravel_fn sample in
          let p_log_prob := log_prob_dist approx_normal_prior sample_tree in
          let log_likelihood :=
            get_log_likelihood (transform_tree sample_tree bijector)
              aux batch params in
          let batch_size := array_of_nat (length batch) in
          let log_likelihood_scaled :=
            ((log_likelihood / batch_size) * data_size)%arr in
          loss =
          ((q_log_prob - p_log_prob - log_likelihood_scaled) / data_size)%arr.
Proof.
  split.
  - intros Hrun.
    pose proof (loss_fn_per_sample_state posterior params batch aux
                  data_size seed self) as Hs.
    rewrite Hrun in Hs. cbn in Hs. subst self'. split; [done|].
    destruct (self_unravel_fn self) as [u|] eqn:Hu;
      [|by unfold loss_fn_per_sample, getattr, mbind, M_bind in Hrun;
           rewrite Hu in Hrun].
    destruct (self_approx_normal_prior self) as [a|] eqn:Ha;
      [|by unfold loss_fn_per_sample, getattr, mbind, M_bind in Hrun;
           rewrite Hu, Ha in Hrun].
    destruct (self_bijector self) as [b|] eqn:Hb;
      [|by unfold loss_fn_per_sample, getattr, mbind, M_bind in Hrun;
           rewrite Hu, Ha, Hb in Hrun].
    destruct (self_get_log_likelihood self) as [g|] eqn:Hg;
      [|by unfold loss_fn_per_sample, getattr, mbind, M_bind in Hrun;
           rewrite Hu, Ha, Hb, Hg in Hrun].
    rewrite (loss_fn_per_sample_run _ _ _ _ _ _ _ _ _ _ _ Hu Ha Hb Hg)
      in Hrun.
    injection Hrun as <-. by exists u, a, b, g.
  - intros (-> & u & a & b & g & Hu & Ha & Hb & Hg & ->).
    by rewrite (loss_fn_per_sample_run _ _ _ _ _ _ _ _ _ _ _ Hu Ha Hb Hg).
Qed.

(** C2.  [n_samples] defaults to 1.  For [n_samples >= 1] the value that
    [loss_fn] returns is the mean of the [n_samples] per-sample losses,
    one for each sub-seed of [jax.random.split(seed, n_samples)]; it
    returns exactly when [params] has a ["posterior"], the instance has
    its [posterior_params_bijector] and every per-sample loss is
    computed. *)
Theorem loss_fn_mean self params batch aux data_size seed n_samples :
  loss_fn params batch aux data_size seed None self
  = loss_fn params batch aux data_size seed (Some 1) self
  ∧ (1 ≤ n_samples →
     ∀ loss self',
       loss_fn params batch aux data_size seed (Some n_samples) self
       = (Ok loss, self')
       ↔ self' = self
         ∧ ∃ raw posterior_params_bijector losses,
             params !! "posterior" = Some raw
             ∧ self_posterior_params_bijector self
               = Some posterior_params_bijector
             ∧ length losses = n_samples
             ∧ Forall2
                 (λ sub_seed per_sample,
                    loss_fn_per_sample
                      (transform_dist_params raw posterior_params_bijector)
                      params batch aux data_size sub_seed self
                    = (Ok per_sample, self))
                 (random_split seed n_samples) losses
             ∧ loss = array_mean losses).
Proof.
  split; [done|]. intros _ loss self'.
  destruct (params !! "posterior") as [raw|] eqn:Hraw.
  2:{ unfold loss_fn, getitem. rewrite Hraw. split; [done|].
      by intros (_ & ? & ? & ? & ? & _). }
  destruct (self_posterior_params_bijector self) as [ppb|] eqn:Hppb.
  2:{ unfold loss_fn, getitem, getattr. rewrite Hraw.
      unfold mbind, M_bind at 1, mret, M_ret.
      unfold mbind, M_bind at 1. rewrite Hppb. split; [done|].
      by intros (_ & ? & ? & ? & ? & ? & _). }
  rewrite (loss_fn_unfold _ _ _ _ _ _ _ _ _ Hraw Hppb).
  change (default 1 (Some n_samples)) with n_samples.
  assert (Hst : ∀ x s,
    snd (loss_fn_per_sample (transform_dist_params raw ppb) params batch aux
           data_size x s) = s)
    by (intros; apply loss_fn_per_sample_state).
  destruct (vmap _ _ _) as [[losses|e] s] eqn:Hvm.
  - split.
    + intros [= <- <-].
      apply vmap_Ok in Hvm as [-> HF]; [|done].
      split; [done|]. exists raw, ppb, losses. repeat split; try done.
      apply Forall2_length in HF. by rewrite random_split_length in HF.
    + intros (-> & raw' & ppb' & losses' & [= <-] & [= <-] & _ & HF & ->).
      apply (conj (eq_refl self)), vmap_Ok in HF; [|done].
      rewrite Hvm in HF. by injection HF as -> ->.
  - split; [done|].
    intros (-> & raw' & ppb' & losses' & [= <-] & [= <-] & _ & HF & ->).
    apply (conj (eq_refl self)), vmap_Ok in HF; [|done].
    by rewrite Hvm in HF.
Qed.

(** C3.  [loss_fn] is a pure function of its inputs: a call leaves the
    instance as it found it, so a second call with the same arguments
    runs on the same instance and returns the same loss (or raises the
    same error), and again changes nothing. *)
Theorem loss_fn_pure self params batch aux data_size seed n_samples :
  let first := loss_fn params batch aux data_size seed n_samples self in
  let second :=
    loss_fn params batch aux data_size seed n_samples (snd first) in
  snd first = self ∧ fst second = fst first ∧ snd second = self.
Proof.
  cbn zeta. by rewrite !loss_fn_state.
Qed.

(** C7.  In every evaluation of [loss_fn] the user's likelihood receives
    the sample tree after [transform_tree] with the instance's bijector
    as first argument, [aux] as second, the batch as third and all of
    [params] as keyword arguments: the loss is the mean over the sub-seeds
    of the per-sample loss with the likelihood taken at exactly these
    arguments, and a likelihood that agrees with the user's at these
    argument tuples gives the same loss. *)
Theorem loss_fn_likelihood_arguments self unravel_fn approx_normal_prior
    bijector get_log_likelihood posterior_params_bijector params raw batch
    aux data_size seed n_samples :
  self_unravel_fn self = Some unravel_fn →
  self_approx_normal_prior self = Some approx_normal_prior →
  self_bijector self = Some bijector →
  self_get_log_likelihood self = Some get_log_likelihood →
  self_posterior_params_bijector self = Some posterior_params_bijector →
  params !! "posterior" = Some raw →
  let posterior := transform_dist_params raw posterior_params_bijector in
  let seeds := random_split seed (default 1 n_samples) in
  let transformed_sample_tree sub_seed :=
    transform_tree (unravel_fn (sample posterior sub_seed)) bijector in
  loss_fn params batch aux data_size seed n_samples self =
  (Ok (array_mean
         ((λ sub_seed,
             let z := sample posterior sub_seed in
             per_sample_loss (log_prob posterior z)
               (log_prob_dist approx_normal_prior (unravel_fn z))
               (get_log_likelihood (transformed_sample_tree sub_seed)
                  aux batch params)
               (length batch) data_size) <$> seeds)), self)
  ∧ ∀ other_log_likelihood : likelihood,
      (∀ sub_seed, sub_seed ∈ seeds →
         other_log_likelihood (transformed_sample_tree sub_seed)
           aux batch params
         = get_log_likelihood (transformed_sample_tree sub_seed)
             aux batch params) →
      fst (loss_fn params batch aux data_size seed n_samples
             (snd (set_get_log_likelihood other_log_likelihood self)))
      = fst (loss_fn params batch aux data_size seed n_samples self).
Proof.
  intros Hu Ha Hb Hg Hppb Hraw posterior seeds tst.
  rewrite (loss_fn_run _ _ _ _ _ _ _ _ _ _ _ _ _ Hu Ha Hb Hg Hppb Hraw).
  split; [done|]. intros other Hother.
  rewrite (loss_fn_run (snd (set_get_log_likelihood other self))
             unravel_fn approx_normal_prior bijector other
             posterior_params_bijector params raw) by done.
  cbn [fst]. do 2 f_equal. apply list_fmap_ext. intros i s Hs.
  unfold sample_loss. cbn zeta. f_equal.
  apply Hother. by apply list_elem_of_lookup_2 in Hs.
Qed.

(** C8.  On an instance built for a supported [vi_type], [apply(params)]
    sends [params["posterior"]] through the [posterior_params_bijector]
    of the instance and returns the [Posterior] made of exactly that
    realised surrogate, the approximate normal prior and the bijector
    given at construction; [loss_fn] on the same [params] draws its
    samples from the very distribution that [apply] returns. *)
Theorem apply_posterior prior bijector get_log_likelihood vi_type rank
    ordered_posterior_bijectors self posterior unravel_fn
    posterior_params_bijector params :
  new prior bijector get_log_likelihood vi_type rank
    ordered_posterior_bijectors = Ok self →
  builder vi_type rank ordered_posterior_bijectors
    (inverse_transform_dist prior bijector)
  = Some (posterior, unravel_fn, posterior_params_bijector) →
  apply params self =
  (match params !! "posterior" with
   | Some raw =>
       Ok (mkPosterior _
             (transform_dist_params raw posterior_params_bijector)
             (inverse_transform_dist prior bijector) bijector)
   | None => Err (KeyError "posterior")
   end, self)
  ∧ ∀ output batch aux data_size seed n_samples,
      apply params self = (Ok output, self) →
      loss_fn params batch aux data_size seed n_samples self =
      (Ok (array_mean
             (sample_loss unravel_fn
                (Posterior_approx_normal_prior output)
                (Posterior_bijector output) get_log_likelihood
                (Posterior_posterior output) params batch aux data_size
              <$> random_split seed (default 1 n_samples))), self).
Proof.
  intros Hnew Hbuilt.
  destruct (constructed_attrs _ _ _ _ _ _ _ _ _ _ Hnew Hbuilt)
    as (Hb & Hg & Ha & _ & Hu & Hppb).
  rewrite (apply_run _ _ _ _ _ Hppb Ha Hb). split; [done|].
  intros output batch aux data_size seed n_samples.
  destruct (params !! "posterior") as [raw|] eqn:Hraw; [|done].
  intros [= <-]. cbn.
  by apply loss_fn_run.
Qed.

(** C9.  On an instance built for a supported [vi_type], for every seed
    and initializer [init] returns the dictionary whose single key
    ["posterior"] holds [initialize_params] of the surrogate fixed at
    construction; the result is a function of the seed, the initializer
    and that surrogate only, and an earlier [loss_fn] call, whatever its
    batch and [data_size], does not change it. *)
Theorem init_posterior prior bijector get_log_likelihood vi_type rank
    ordered_posterior_bijectors self posterior unravel_fn
    posterior_params_bijector seed initializer :
  new prior bijector get_log_likelihood vi_type rank
    ordered_posterior_bijectors = Ok self →
  builder vi_type rank ordered_posterior_bijectors
    (inverse_transform_dist prior bijector)
  = Some (posterior, unravel_fn, posterior_params_bijector) →
  let params : gmap string Value :=
    {[ "posterior" :=
         initialize_params posterior seed
           (default initializers_normal initializer) ]} in
  init seed initializer self = (Ok params, self)
  ∧ dom params = {[ "posterior" ]}
  ∧ ∀ params' batch aux data_size seed' n_samples,
      init seed initializer
        (snd (loss_fn params' batch aux data_size seed' n_samples self))
      = (Ok params, self).
Proof.
  intros Hnew Hbuilt params.
  destruct (constructed_attrs _ _ _ _ _ _ _ _ _ _ Hnew Hbuilt)
    as (_ & _ & _ & Hp & _ & _).
  split; [by apply init_run|]. split; [apply dom_singleton_L|].
  intros. rewrite loss_fn_state. by apply init_run.
Qed.

End claims_methods.

(** * The claims on the coin-toss model *)

Section examples.
Import Fixture.

Lemma coin_keys : dom coin_bijector = dom coin_prior.
Proof. unfold coin_bijector, coin_prior. by rewrite !dom_singleton_L. Qed.

Lemma coin_batch_rank_sum : batch_rank_sum coin_prior = 0.
Proof. by vm_compute. Qed.

Lemma coin_zero_batch : zero_batch coin_prior.
Proof. apply batch_rank_sum_zero, coin_batch_rank_sum. Qed.

Lemma coin_builder :
  builder "mean_field" None None (inverse_transform_dist coin_prior coin_bijector)
  = Some (coin_posterior, coin_unravel_fn, 1%Z).
Proof. by vm_compute. Qed.

Lemma other_keys (prior : gmap string (pytree dist)) d :
  prior = {[ "p_of_head" := d ]} → dom other_bijector ≠ dom prior.
Proof.
  intros -> Hdom. unfold other_bijector in Hdom.
  rewrite !dom_singleton_L in Hdom.
  assert ("scale" ∈ ({[ "p_of_head" ]} : gset string)) as Hin
    by (rewrite <-Hdom; by apply elem_of_singleton).
  by apply elem_of_singleton in Hin.
Qed.

Lemma batched_batch_rank_sum : batch_rank_sum batched_prior = 1.
Proof. by vm_compute. Qed.

Example coin_advi_new :
  new coin_prior coin_bijector coin_log_likelihood "mean_field" None None
  = Ok coin_advi.
Proof.
  apply new_Ok. split; [apply coin_keys|].
  split; [apply coin_batch_rank_sum|]. by split.
Qed.

Example coin_loss :
  loss_fn fitted tosses 7%Z 10%Z 4 (Some 2) coin_advi
  = (Ok (-7)%Z, coin_advi).
Proof.
  rewrite (loss_fn_run coin_advi coin_unravel_fn (Dict coin_prior)
             coin_bijector coin_log_likelihood 1%Z fitted 2%Z) by done.
  do 2 f_equal.
Qed.

(** C4 on the coin-toss model: the three conditions hold and the instance
    is built. *)
Lemma new_KeyMismatchError_iff_witness :
  dom coin_bijector = dom coin_prior
  ∧ zero_batch coin_prior
  ∧ rank_consistent "mean_field" None
  ∧ new coin_prior coin_bijector coin_log_likelihood "mean_field" None None
    = Ok coin_advi.
Proof.
  assert (rank_consistent "mean_field" None) as Hr by (by split).
  split; [apply coin_keys|]. split; [apply coin_zero_batch|].
  split; [apply Hr|].
  exact (proj2 (new_KeyMismatchError_iff (E:=externals) coin_prior coin_bijector
                  coin_log_likelihood "mean_field" None None)
           coin_keys coin_zero_batch Hr).
Defined.

(** C5 as stated fails on a batched prior whose keys differ from the
    bijector's: the batch ranks sum to 1, and the key check raises
    first. *)
Lemma new_ZeroBatchViolation_counterexample :
  new batched_prior other_bijector coin_log_likelihood "mean_field" None None
  = Err KeyMismatchError
  ∧ ¬ (new batched_prior other_bijector coin_log_likelihood "mean_field"
         None None = Err ZeroBatchViolation
       ↔ batch_rank_sum batched_prior ≠ 0).
Proof.
  assert (new batched_prior other_bijector coin_log_likelihood "mean_field"
            None None = Err KeyMismatchError) as Hnew.
  { apply new_Err. left. split; [by eapply other_keys|done]. }
  split; [apply Hnew|]. intros [_ Hraise]. rewrite Hnew in Hraise.
  rewrite batched_batch_rank_sum in Hraise.
  by specialize (Hraise ltac:(lia)).
Qed.

(** C5 as the code has it, on the batched prior with matching keys. *)
Lemma new_ZeroBatchViolation_iff_witness :
  dom coin_bijector = dom batched_prior
  ∧ batch_rank_sum batched_prior ≠ 0
  ∧ new batched_prior coin_bijector coin_log_likelihood "mean_field" None None
    = Err ZeroBatchViolation.
Proof.
  assert (dom coin_bijector = dom batched_prior) as Hk
    by (unfold coin_bijector, batched_prior; by rewrite !dom_singleton_L).
  assert (batch_rank_sum batched_prior ≠ 0) as Hsum
    by (rewrite batched_batch_rank_sum; lia).
  split; [apply Hk|]. split; [apply Hsum|].
  exact (proj2 (proj1 (new_ZeroBatchViolation_iff (E:=externals) batched_prior coin_bijector
                         coin_log_likelihood "mean_field" None None))
           (conj Hk Hsum)).
Defined.

(** C6 as stated fails when [rank] is given for ["mean_field"] and the
    keys differ: the key check raises first. *)
Lemma new_RankSpecificationError_counterexample :
  new coin_prior other_bijector coin_log_likelihood "mean_field"
    (Some 1%Z) None = Err KeyMismatchError
  ∧ ¬ (¬ rank_consistent "mean_field" (Some 1%Z) →
       new coin_prior other_bijector coin_log_likelihood "mean_field"
         (Some 1%Z) None = Err RankSpecificationError).
Proof.
  assert (new coin_prior other_bijector coin_log_likelihood "mean_field"
            (Some 1%Z) None = Err KeyMismatchError) as Hnew.
  { apply new_Err. left. split; [by eapply other_keys|done]. }
  split; [apply Hnew|]. intros Hraise. rewrite Hnew in Hraise.
  assert (¬ rank_consistent "mean_field" (Some 1%Z)) as Hr.
  { intros [_ Hr]. by specialize (Hr ltac:(done)). }
  by specialize (Hraise Hr).
Qed.

(** C6 as the code has it, on the coin-toss model with a [rank] given
    for ["mean_field"]. *)
Lemma new_RankSpecificationError_iff_witness :
  dom coin_bijector = dom coin_prior
  ∧ batch_rank_sum coin_prior = 0
  ∧ ¬ rank_consistent "mean_field" (Some 1%Z)
  ∧ new coin_prior coin_bijector coin_log_likelihood "mean_field"
      (Some 1%Z) None = Err RankSpecificationError.
Proof.
  assert (batch_rank_sum coin_prior = 0) as Hsum
    by apply coin_batch_rank_sum.
  assert (¬ rank_consistent "mean_field" (Some 1%Z)) as Hr.
  { intros [_ Hr]. by specialize (Hr ltac:(done)). }
  split; [apply coin_keys|]. split; [apply Hsum|]. split; [apply Hr|].
  exact (proj2 (proj1 (new_RankSpecificationError_iff (E:=externals) coin_prior
                         coin_bijector coin_log_likelihood "mean_field"
                         (Some 1%Z) None))
           (conj coin_keys (conj Hsum Hr))).
Defined.

(** C10 as stated fails for the unknown family ["laplace"] when the keys
    differ: construction raises. *)
Lemma new_unsupported_vi_type_counterexample :
  ¬ supported "laplace"
  ∧ new coin_prior other_bijector coin_log_likelihood "laplace" None None
    = Err KeyMismatchError
  ∧ ¬ ∃ self,
        new coin_prior other_bijector coin_log_likelihood "laplace" None None
        = Ok self.
Proof.
  assert (new coin_prior other_bijector coin_log_likelihood "laplace"
            None None = Err KeyMismatchError) as Hnew.
  { apply new_Err. left. split; [by eapply other_keys|done]. }
  split; [by intros [?|[?|?]]|]. split; [apply Hnew|].
  intros [self Hself]. by rewrite Hnew in Hself.
Qed.

(** C10 as the code has it, for ["laplace"] on the coin-toss model. *)
Lemma new_unsupported_vi_type_witness :
  ¬ supported "laplace"
  ∧ dom coin_bijector = dom coin_prior
  ∧ zero_batch coin_prior
  ∧ ∃ self,
      new coin_prior coin_bijector coin_log_likelihood "laplace" None None
      = Ok self
      ∧ self_posterior self = None
      ∧ init 4 None self = (Err (AttributeError "posterior"), self).
Proof.
  assert (¬ supported "laplace") as Hv by (by intros [?|[?|?]]).
  split; [apply Hv|]. split; [apply coin_keys|].
  split; [apply coin_zero_batch|].
  destruct (new_unsupported_vi_type (E:=externals) coin_prior coin_bijector
              coin_log_likelihood "laplace" None Hv coin_keys
              coin_zero_batch)
    as (self & Hnew & Hp & _ & _ & Hinit & _).
  exists self. split; [apply Hnew|]. split; [apply Hp|apply Hinit].
Defined.

(** C2 on the coin-toss model with two samples. *)
Lemma loss_fn_mean_witness :
  1 ≤ 2
  ∧ loss_fn fitted tosses 7%Z 10%Z 4 (Some 2) coin_advi
    = (Ok (-7)%Z, coin_advi)
  ∧ ∃ losses : list Z,
      length losses = 2
      ∧ Forall2
          (λ sub_seed per_sample,
             loss_fn_per_sample (mkDist [] 2) fitted tosses 7%Z 10%Z
               sub_seed coin_advi = (Ok per_sample, coin_advi))
          [5; 6] losses
      ∧ (-7)%Z = array_mean losses.
Proof.
  assert (1 ≤ 2) as Hn by lia.
  split; [apply Hn|]. split; [apply coin_loss|].
  destruct (proj1 (proj2 (loss_fn_mean (E:=externals) coin_advi fitted tosses 7%Z 10%Z 4 2)
                     Hn (-7)%Z coin_advi) coin_loss)
    as (_ & raw & ppb & losses & Hraw & Hppb & Hlen & Hall & Hmean).
  injection Hraw as <-. injection Hppb as <-.
  exists losses. split; [apply Hlen|]. split; [apply Hall|apply Hmean].
Defined.

(** C7 on the coin-toss model. *)
Lemma loss_fn_likelihood_arguments_witness :
  self_unravel_fn coin_advi = Some coin_unravel_fn
  ∧ self_approx_normal_prior coin_advi = Some (Dict coin_prior)
  ∧ self_bijector coin_advi = Some coin_bijector
  ∧ self_get_log_likelihood coin_advi = Some coin_log_likelihood
  ∧ self_posterior_params_bijector coin_advi = Some 1%Z
  ∧ fitted !! "posterior" = Some 2%Z
  ∧ loss_fn fitted tosses 7%Z 10%Z 4 (Some 2) coin_advi
    = (Ok (array_mean
             [per_sample_loss (log_prob (mkDist [] 2) 7%Z) 1%Z
                (coin_log_likelihood (Dict {[ "theta" := Leaf 8%Z ]})
                   7%Z tosses fitted) 3 10%Z;
              per_sample_loss (log_prob (mkDist [] 2) 8%Z) 1%Z
                (coin_log_likelihood (Dict {[ "theta" := Leaf 9%Z ]})
                   7%Z tosses fitted) 3 10%Z]), coin_advi).
Proof.
  assert (self_unravel_fn coin_advi = Some coin_unravel_fn) as Hu by done.
  assert (self_approx_normal_prior coin_advi = Some (Dict coin_prior))
    as Ha by done.
  assert (self_bijector coin_advi = Some coin_bijector) as Hb by done.
  assert (self_get_log_likelihood coin_advi = Some coin_log_likelihood)
    as Hg by done.
  assert (self_posterior_params_bijector coin_advi = Some 1%Z) as Hp by done.
  assert (fitted !! "posterior" = Some 2%Z) as Hraw by done.
  split; [apply Hu|]. split; [apply Ha|]. split; [apply Hb|].
  split; [apply Hg|]. split; [apply Hp|]. split; [apply Hraw|].
  exact (proj1 (loss_fn_likelihood_arguments (E:=externals) coin_advi _ _ _ _ _ fitted _
                  tosses 7%Z 10%Z 4 (Some 2) Hu Ha Hb Hg Hp Hraw)).
Defined.

(** C8 on the coin-toss model. *)
Lemma apply_posterior_witness :
  new coin_prior coin_bijector coin_log_likelihood "mean_field" None None
  = Ok coin_advi
  ∧ builder "mean_field" None None
      (inverse_transform_dist coin_prior coin_bijector)
    = Some (coin_posterior, coin_unravel_fn, 1%Z)
  ∧ apply fitted coin_advi
    = (Ok (mkPosterior _ (mkDist [] 2) (Dict coin_prior) coin_bijector),
       coin_advi).
Proof.
  split; [apply coin_advi_new|]. split; [apply coin_builder|].
  exact (proj1 (apply_posterior (E:=externals) coin_prior coin_bijector coin_log_likelihood
                  "mean_field" None None coin_advi coin_posterior
                  coin_unravel_fn 1%Z fitted coin_advi_new coin_builder)).
Defined.

(** C9 on the coin-toss model, with the default initializer. *)
Lemma init_posterior_witness :
  new coin_prior coin_bijector coin_log_likelihood "mean_field" None None
  = Ok coin_advi
  ∧ builder "mean_field" None None
      (inverse_transform_dist coin_prior coin_bijector)
    = Some (coin_posterior, coin_unravel_fn, 1%Z)
  ∧ init 4 None coin_advi = (Ok {[ "posterior" := 9%Z ]}, coin_advi).
Proof.
  split; [apply coin_advi_new|]. split; [apply coin_builder|].
  exact (proj1 (init_posterior (E:=externals) coin_prior coin_bijector coin_log_likelihood
                  "mean_field" None None coin_advi coin_posterior
                  coin_unravel_fn 1%Z 4 None coin_advi_new coin_builder)).
Defined.

End examples.

(** * Further properties of the class *)

Section more_construction.
Context `{E : Externals}.

#[local] Arguments tree_map : simpl never.
#[local] Arguments tree_leaves : simpl never.

Lemma elem_of_tree_leaves_lookup {A} (t : pytree A) a :
  a ∈ tree_leaves t ↔ ∃ path, tree_lookup path t = Some (Leaf a).
Proof.
  revert a. induction t as [b|m IH] using pytree_ind'; intros a.
  - change (tree_leaves (Leaf b)) with [b]. rewrite list_elem_of_singleton.
    split.
    + intros ->. by exists [].
    + intros [[|k path] Hp]; [by injection Hp|done].
  - rewrite tree_leaves_Dict, list_elem_of_bind. split.
    + intros (c & Ha & Hc).
      apply list_elem_of_fmap in Hc as ([k c'] & -> & Hkc).
      apply elem_of_map_to_list in Hkc.
      apply (IH k c' Hkc) in Ha as [path Hp].
      exists (k :: path). cbn. by rewrite Hkc.
    + intros [[|k path] Hp]; [done|]. cbn in Hp.
      destruct (m !! k) as [c|] eqn:Hk; [|done]. cbn in Hp.
      exists c. split; [apply (IH k c Hk); eauto|].
      apply list_elem_of_fmap. exists (k, c). split; [done|].
      by apply elem_of_map_to_list.
Qed.

(** [__init__] on an instance in any state, step by step. *)
Lemma init_method_eq prior bijector gll vi_type rank opb s :
  __init__ prior bijector gll vi_type rank opb s =
  if bool_decide (dom bijector = dom prior) then
    if bool_decide (batch_rank_sum prior = 0) then
      if eqb (bool_decide (vi_type = "low_rank")) (is_not_None rank) then
        let anp := inverse_transform_dist prior bijector in
        let built := builder vi_type rank opb anp in
        (Ok (),
         mkADVI (Some prior) (Some bijector) (Some gll) (Some vi_type)
           (Some anp)
           (from_option (λ x, Some x.1.1) (self_posterior s) built)
           (from_option (λ x, Some x.1.2) (self_unravel_fn s) built)
           (from_option (λ x, Some x.2)
              (self_posterior_params_bijector s) built))
      else (Err RankSpecificationError, snd (set_prior prior s))
    else (Err ZeroBatchViolation, snd (set_prior prior s))
  else (Err KeyMismatchError, s).
Proof.
  unfold __init__, check_prior_zero_batch.
  destruct (bool_decide (dom bijector = dom prior)); [|done].
  unfold assert, raise, getattr, set_prior, set_bijector,
    set_get_log_likelihood, set_vi_type, set_approx_normal_prior,
    set_posterior, set_unravel_fn, set_posterior_params_bijector.
  unfold mbind, M_bind, mret, M_ret. cbn. rewrite batch_lens_sum.
  destruct (bool_decide (batch_rank_sum prior = 0)); [|done].
  destruct (eqb _ _); [|done].
  cbn. unfold builder.
  destruct (bool_decide (vi_type = "mean_field")); cbn;
    [by destruct (get_mean_field _ _) as [[??]?]|].
  destruct (bool_decide (vi_type = "low_rank")); cbn;
    [by destruct (get_low_rank _ _ _) as [[??]?]|].
  destruct (bool_decide (vi_type = "full_rank")); cbn;
    [by destruct (get_full_rank _ _) as [[??]?]|].
  done.
Qed.


(** X2.  What a successful construction guarantees about the instance:
    it stores the arguments and the approximate normal prior of exactly
    these, the stored [prior] and [bijector] have the same keys, the
    stored prior has no batch dimension, and the three attributes of the
    surrogate are all there for a supported [vi_type] and all missing
    otherwise. *)
Theorem new_instance_invariant prior bijector get_log_likelihood vi_type
    rank ordered_posterior_bijectors self :
  new prior bijector get_log_likelihood vi_type rank
    ordered_posterior_bijectors = Ok self →
  self_prior self = Some prior
  ∧ self_bijector self = Some bijector
  ∧ self_get_log_likelihood self = Some get_log_likelihood
  ∧ self_vi_type self = Some vi_type
  ∧ self_approx_normal_prior self
    = Some (inverse_transform_dist prior bijector)
  ∧ dom bijector = dom prior
  ∧ zero_batch prior
  ∧ (supported vi_type →
     is_Some (self_posterior self) ∧ is_Some (self_unravel_fn self)
     ∧ is_Some (self_posterior_params_bijector self))
  ∧ (¬ supported vi_type →
     self_posterior self = None ∧ self_unravel_fn self = None
     ∧ self_posterior_params_bijector self = None).
Proof.
  intros (Hk & Hz & _ & ->)%new_Ok. apply batch_rank_sum_zero in Hz.
  unfold constructed. repeat (split; [done|]). split.
  - intros Hv.
    destruct (builder_supported vi_type rank ordered_posterior_bijectors
                (inverse_transform_dist prior bijector) Hv) as [x ->].
    cbn. eauto.
  - intros Hv. by rewrite (builder_unsupported _ _ _ _ Hv).
Qed.

(** X3.  Which builder made the surrogate: on a constructed instance
    ["mean_field"] and ["full_rank"] come with [rank = None] and the
    result of [get_mean_field], [get_full_rank]; ["low_rank"] comes with
    a given rank and the result of [get_low_rank] at that rank, so
    [get_low_rank] never receives [None]. *)
Theorem new_builder_dispatch prior bijector get_log_likelihood vi_type
    rank ordered_posterior_bijectors self :
  new prior bijector get_log_likelihood vi_type rank
    ordered_posterior_bijectors = Ok self →
  let anp := inverse_transform_dist prior bijector in
  (vi_type = "mean_field" →
   rank = None
   ∧ surrogate_attrs self
     = Some (get_mean_field anp ordered_posterior_bijectors))
  ∧ (vi_type = "low_rank" →
     ∃ r, rank = Some r
          ∧ surrogate_attrs self
            = Some (get_low_rank anp (Some r) ordered_posterior_bijectors))
  ∧ (vi_type = "full_rank" →
     rank = None
     ∧ surrogate_attrs self
       = Some (get_full_rank anp ordered_posterior_bijectors)).
Proof.
  intros (_ & _ & Hr & ->)%new_Ok anp. unfold rank_consistent in Hr.
  unfold surrogate_attrs, constructed, builder. fold anp.
  split; [|split]; intros ->; cbn.
  - split; [destruct rank; [|done]; by destruct Hr as [_ Hr];
            specialize (Hr ltac:(done))|].
    by destruct (get_mean_field _ _) as [[??]?].
  - destruct rank as [r|]; [|by destruct Hr as [Hr _];
                              specialize (Hr ltac:(done))].
    exists r. split; [done|].
    by destruct (get_low_rank _ _ _) as [[??]?].
  - split; [destruct rank; [|done]; by destruct Hr as [_ Hr];
            specialize (Hr ltac:(done))|].
    by destruct (get_full_rank _ _) as [[??]?].
Qed.

(** X9.  The empty model: with an empty [prior] and an empty [bijector]
    the key check and the zero-batch check pass, so construction
    succeeds exactly when [rank] is given for ["low_rank"] only, and
    fails with the rank error otherwise. *)
Theorem new_empty_prior get_log_likelihood vi_type rank
    ordered_posterior_bijectors :
  (rank_consistent vi_type rank →
   new ∅ ∅ get_log_likelihood vi_type rank ordered_posterior_bijectors
   = Ok (constructed ∅ ∅ get_log_likelihood vi_type rank
           ordered_posterior_bijectors))
  ∧ (¬ rank_consistent vi_type rank →
     new ∅ ∅ get_log_likelihood vi_type rank ordered_posterior_bijectors
     = Err RankSpecificationError).
Proof.
  assert (batch_rank_sum (∅ : gmap string (pytree Distribution)) = 0)
    as Hsum.
  { unfold batch_rank_sum. by rewrite tree_leaves_Dict, map_to_list_empty. }
  split; intros Hr.
  - apply new_Ok. by rewrite !dom_empty_L.
  - apply new_Err. right. right. by rewrite !dom_empty_L.
Qed.

(** X10.  The zero-batch check looks at every depth: on an instance
    whose [prior] is set, [check_prior_zero_batch] raises exactly when
    some path of keys into the prior ends at a distribution with a
    nonempty batch shape. *)
Theorem check_prior_zero_batch_paths self prior :
  self_prior self = Some prior →
  check_prior_zero_batch self = (Err ZeroBatchViolation, self)
  ↔ ∃ path d,
      tree_lookup path (Dict prior) = Some (Leaf d) ∧ batch_shape d ≠ [].
Proof.
  intros Hp. rewrite (check_prior_zero_batch_run _ _ Hp).
  assert (batch_rank_sum prior ≠ 0
          ↔ ∃ path d, tree_lookup path (Dict prior) = Some (Leaf d)
                      ∧ batch_shape d ≠ []) as <-.
  { rewrite batch_rank_sum_zero. unfold zero_batch.
    rewrite <-Exists_Forall_neg
      by (intros d; destruct (decide (batch_shape d = [])); auto).
    rewrite Exists_exists. split.
    - intros (d & [path Hd]%elem_of_tree_leaves_lookup & Hb). eauto.
    - intros (path & d & Hd & Hb). exists d. split; [|done].
      apply elem_of_tree_leaves_lookup. eauto. }
  case_bool_decide; split; done.
Qed.

(** X11.  [__init__] on an instance that already has attributes.  A
    failed key check leaves it untouched; a failed zero-batch or rank
    check has already replaced its [prior] and nothing else; a success
    for a supported [vi_type] leaves exactly the instance that a fresh
    construction gives, and for another [vi_type] it keeps the old
    surrogate attributes. *)
Theorem init_method_on_instance prior bijector get_log_likelihood vi_type
    rank ordered_posterior_bijectors s :
  let run := __init__ prior bijector get_log_likelihood vi_type rank
               ordered_posterior_bijectors s in
  (dom bijector ≠ dom prior → run = (Err KeyMismatchError, s))
  ∧ (dom bijector = dom prior → batch_rank_sum prior ≠ 0 →
     run = (Err ZeroBatchViolation, snd (set_prior prior s)))
  ∧ (dom bijector = dom prior → batch_rank_sum prior = 0 →
     ¬ rank_consistent vi_type rank →
     run = (Err RankSpecificationError, snd (set_prior prior s)))
  ∧ (dom bijector = dom prior → batch_rank_sum prior = 0 →
     rank_consistent vi_type rank → supported vi_type →
     run = (Ok (), constructed prior bijector get_log_likelihood vi_type
                     rank ordered_posterior_bijectors))
  ∧ (dom bijector = dom prior → batch_rank_sum prior = 0 →
     rank_consistent vi_type rank → ¬ supported vi_type →
     ∃ s', run = (Ok (), s')
           ∧ self_posterior s' = self_posterior s
           ∧ self_unravel_fn s' = self_unravel_fn s
           ∧ self_posterior_params_bijector s'
             = self_posterior_params_bijector s
           ∧ self_prior s' = Some prior
           ∧ self_bijector s' = Some bijector).
Proof.
  intros run. unfold run. rewrite init_method_eq.
  repeat split.
  - intros Hk. by rewrite (bool_decide_eq_false_2 _ Hk).
  - intros Hk Hs.
    by rewrite (bool_decide_eq_true_2 _ Hk), (bool_decide_eq_false_2 _ Hs).
  - intros Hk Hs Hr%rank_check_false.
    by rewrite (bool_decide_eq_true_2 _ Hk), (bool_decide_eq_true_2 _ Hs), Hr.
  - intros Hk Hs Hr%rank_check_true Hv.
    rewrite (bool_decide_eq_true_2 _ Hk), (bool_decide_eq_true_2 _ Hs), Hr.
    cbn zeta.
    unfold constructed.
    by destruct (builder_supported vi_type rank ordered_posterior_bijectors
                   (inverse_transform_dist prior bijector) Hv) as [x ->].
  - intros Hk Hs Hr%rank_check_true Hv.
    rewrite (bool_decide_eq_true_2 _ Hk), (bool_decide_eq_true_2 _ Hs), Hr.
    cbn zeta. rewrite (builder_unsupported _ _ _ _ Hv). eauto 10.
Qed.

End more_construction.

Section more_methods.
Context `{E : Externals}.

Lemma loss_fn_per_sample_reads s1 s2 posterior params batch aux data_size
    seed :
  self_unravel_fn s1 = self_unravel_fn s2 →
  self_approx_normal_prior s1 = self_approx_normal_prior s2 →
  self_bijector s1 = self_bijector s2 →
  self_get_log_likelihood s1 = self_get_log_likelihood s2 →
  fst (loss_fn_per_sample posterior params batch aux data_size seed s1)
  = fst (loss_fn_per_sample posterior params batch aux data_size seed s2).
Proof.
  intros Hu Ha Hb Hg.
  unfold loss_fn_per_sample, getattr, mbind, M_bind, mret, M_ret.
  rewrite Hu. destruct (self_unravel_fn s2); cbn; [|done].
  rewrite Ha. destruct (self_approx_normal_prior s2); cbn; [|done].
  rewrite Hb. destruct (self_bijector s2); cbn; [|done].
  rewrite Hg. by destruct (self_get_log_likelihood s2).
Qed.

Lemma vmap_reads {A B} (f : A → M B) xs s1 s2 :
  (∀ x s, snd (f x s) = s) →
  (∀ x, fst (f x s1) = fst (f x s2)) →
  fst (vmap f xs s1) = fst (vmap f xs s2).
Proof.
  intros Hst Hf. induction xs as [|x xs IH]; [done|].
  rewrite !vmap_cons. specialize (Hf x).
  pose proof (Hst x s1) as H1. pose proof (Hst x s2) as H2.
  destruct (f x s1) as [r1 t1], (f x s2) as [r2 t2].
  cbn in *. subst. destruct r2 as [y|e]; [|done].
  pose proof (vmap_state f xs s1 Hst) as H1.
  pose proof (vmap_state f xs s2 Hst) as H2.
  destruct (vmap f xs s1) as [r1 t1], (vmap f xs s2) as [r2 t2].
  cbn in *. subst. by destruct r2.
Qed.

Lemma loss_fn_without_bijector self params raw batch aux data_size seed
    n_samples :
  params !! "posterior" = Some raw →
  self_posterior_params_bijector self = None →
  loss_fn params batch aux data_size seed n_samples self
  = (Err (AttributeError "posterior_params_bijector"), self).
Proof.
  intros Hraw Hppb. unfold loss_fn, getitem, getattr. rewrite Hraw.
  unfold mbind, M_bind at 1, mret, M_ret.
  unfold mbind, M_bind at 1. by rewrite Hppb.
Qed.

Lemma loss_fn_reads s1 s2 params batch aux data_size seed n_samples :
  self_posterior_params_bijector s1 = self_posterior_params_bijector s2 →
  self_unravel_fn s1 = self_unravel_fn s2 →
  self_approx_normal_prior s1 = self_approx_normal_prior s2 →
  self_bijector s1 = self_bijector s2 →
  self_get_log_likelihood s1 = self_get_log_likelihood s2 →
  fst (loss_fn params batch aux data_size seed n_samples s1)
  = fst (loss_fn params batch aux data_size seed n_samples s2).
Proof.
  intros Hp Hu Ha Hb Hg.
  destruct (params !! "posterior") as [raw|] eqn:Hraw;
    [|by unfold loss_fn, getitem; rewrite Hraw].
  destruct (self_posterior_params_bijector s2) as [ppb|] eqn:Hppb.
  - rewrite (loss_fn_unfold s1 _ _ _ _ _ _ _ _ Hraw Hp).
    rewrite (loss_fn_unfold s2 _ _ _ _ _ _ _ _ Hraw Hppb).
    pose proof (vmap_reads
      (loss_fn_per_sample (transform_dist_params raw ppb) params batch aux
         data_size)
      (random_split seed (default 1 n_samples)) s1 s2) as Hv.
    destruct (vmap _ _ s1) as [r1 t1], (vmap _ _ s2) as [r2 t2].
    cbn in Hv. rewrite Hv.
    + by destruct r2.
    + intros. apply loss_fn_per_sample_state.
    + intros. by apply loss_fn_per_sample_reads.
  - by rewrite !(loss_fn_without_bijector _ _ raw).
Qed.

Lemma apply_reads s1 s2 params :
  self_posterior_params_bijector s1 = self_posterior_params_bijector s2 →
  self_approx_normal_prior s1 = self_approx_normal_prior s2 →
  self_bijector s1 = self_bijector s2 →
  fst (apply params s1) = fst (apply params s2).
Proof.
  intros Hp Ha Hb. unfold apply, getitem.
  destruct (params !! "posterior") as [raw|]; [|done].
  unfold getattr, mbind, M_bind, mret, M_ret.
  rewrite Hp. destruct (self_posterior_params_bijector s2); cbn; [|done].
  rewrite Ha. destruct (self_approx_normal_prior s2); cbn; [|done].
  rewrite Hb. by destruct (self_bijector s2).
Qed.

Lemma apply_state params self : snd (apply params self) = self.
Proof.
  unfold apply, getitem.
  destruct (params !! "posterior") as [raw|]; [|done].
  unfold getattr, mbind, M_bind, mret, M_ret.
  destruct (self_posterior_params_bijector self); [|done].
  destruct (self_approx_normal_prior self); [|done].
  by destruct (self_bijector self).
Qed.

(** X4.  [init], [apply] and [check_prior_zero_batch] assign no
    attribute: whether they return or raise, the instance after the call
    is the instance before it. *)
Theorem methods_leave_instance self seed initializer params :
  snd (init seed initializer self) = self
  ∧ snd (apply params self) = self
  ∧ snd (check_prior_zero_batch self) = self.
Proof.
  split; [|split; [apply apply_state|]].
  - unfold init, getattr, mbind, M_bind. by destruct (self_posterior self).
  - unfold check_prior_zero_batch, getattr, mbind, M_bind.
    destruct (self_prior self); [|done]. unfold assert.
    by case_bool_decide.
Qed.



Lemma vmap_ext {A B} (f g : A → M B) xs s :
  (∀ x s, snd (f x s) = s) →
  (∀ x s, snd (g x s) = s) →
  (∀ x, fst (f x s) = fst (g x s)) →
  fst (vmap f xs s) = fst (vmap g xs s).
Proof.
  intros Hf Hg Hfg. induction xs as [|x xs IH]; [done|].
  rewrite !vmap_cons. specialize (Hfg x).
  pose proof (Hf x s) as H1. pose proof (Hg x s) as H2.
  destruct (f x s) as [r1 t1], (g x s) as [r2 t2].
  cbn in *. subst. destruct r2 as [y|e]; [|done].
  pose proof (vmap_state f xs s Hf) as H1.
  pose proof (vmap_state g xs s Hg) as H2.
  destruct (vmap f xs s) as [r1 t1], (vmap g xs s) as [r2 t2].
  cbn in *. subst. by destruct r2.
Qed.

(** X7.  Of [params], [apply] reads the entry ["posterior"] only, and
    [loss_fn] reads that entry and hands the whole dictionary to the
    likelihood: two dictionaries with the same ["posterior"] give the
    same [Posterior], and the same loss whenever the likelihood returns
    the same for both. *)
Theorem params_read_through_posterior_entry self
    (params params' : gmap string Value) batch aux data_size seed
    n_samples :
  params !! "posterior" = params' !! "posterior" →
  (∀ get_log_likelihood transformed_sample_tree,
     self_get_log_likelihood self = Some get_log_likelihood →
     get_log_likelihood transformed_sample_tree aux batch params
     = get_log_likelihood transformed_sample_tree aux batch params') →
  apply params self = apply params' self
  ∧ fst (loss_fn params batch aux data_size seed n_samples self)
    = fst (loss_fn params' batch aux data_size seed n_samples self).
Proof.
  intros Hraw Hgll. split; [unfold apply, getitem; by rewrite Hraw|].
  destruct (params !! "posterior") as [raw|] eqn:Hp; symmetry in Hraw.
  2:{ unfold loss_fn, getitem. by rewrite Hp, Hraw. }
  destruct (self_posterior_params_bijector self) as [ppb|] eqn:Hppb.
  2:{ by rewrite !(loss_fn_without_bijector _ _ raw). }
  rewrite (loss_fn_unfold _ _ _ _ _ _ _ _ _ Hp Hppb).
  rewrite (loss_fn_unfold _ _ _ _ _ _ _ _ _ Hraw Hppb).
  pose proof (vmap_ext
    (loss_fn_per_sample (transform_dist_params raw ppb) params batch aux
       data_size)
    (loss_fn_per_sample (transform_dist_params raw ppb) params' batch aux
       data_size)
    (random_split seed (default 1 n_samples)) self) as Hv.
  destruct (vmap _ _ self) as [r1 t1], (vmap _ _ self) as [r2 t2].
  cbn in Hv. rewrite Hv.
  - by destruct r2.
  - intros. apply loss_fn_per_sample_state.
  - intros. apply loss_fn_per_sample_state.
  - intros x.
    unfold loss_fn_per_sample, getattr, mbind, M_bind, mret, M_ret.
    destruct (self_unravel_fn self); cbn; [|done].
    destruct (self_approx_normal_prior self); cbn; [|done].
    destruct (self_bijector self); cbn; [|done].
    destruct (self_get_log_likelihood self) as [gll|] eqn:Hg; cbn; [|done].
    by rewrite (Hgll gll _ eq_refl).
Qed.

(** X8.  [loss_fn] and [apply] do not read the surrogate template
    [self.posterior], nor [self.prior] or [self.vi_type]: instances that
    agree on [posterior_params_bijector], [unravel_fn],
    [approx_normal_prior], [bijector] and [get_log_likelihood] give the
    same loss and the same [Posterior], so assigning one of the three
    other attributes changes neither. *)
Theorem loss_fn_apply_read_five_attributes s1 s2 params batch aux
    data_size seed n_samples :
  self_posterior_params_bijector s1 = self_posterior_params_bijector s2 →
  self_unravel_fn s1 = self_unravel_fn s2 →
  self_approx_normal_prior s1 = self_approx_normal_prior s2 →
  self_bijector s1 = self_bijector s2 →
  self_get_log_likelihood s1 = self_get_log_likelihood s2 →
  fst (loss_fn params batch aux data_size seed n_samples s1)
  = fst (loss_fn params batch aux data_size seed n_samples s2)
  ∧ fst (apply params s1) = fst (apply params s2).
Proof.
  intros Hp Hu Ha Hb Hg. split.
  - by apply loss_fn_reads.
  - by apply apply_reads.
Qed.

End more_methods.

(** * The further properties on the coin-toss model *)

Section more_examples.
Import Fixture.

(** X2 on the coin-toss model. *)
Lemma new_instance_invariant_witness :
  new coin_prior coin_bijector coin_log_likelihood "mean_field" None None
  = Ok coin_advi
  ∧ self_prior coin_advi = Some coin_prior
  ∧ dom coin_bijector = dom coin_prior
  ∧ zero_batch coin_prior.
Proof.
  destruct (new_instance_invariant (E:=externals) coin_prior coin_bijector
              coin_log_likelihood "mean_field" None None coin_advi
              coin_advi_new)
    as (Hp & _ & _ & _ & _ & Hk & Hz & _).
  split; [apply coin_advi_new|]. split; [apply Hp|]. split; [apply Hk|].
  apply Hz.
Defined.

Lemma low_rank_advi_new :
  new coin_prior coin_bijector coin_log_likelihood "low_rank" (Some 2%Z)
    None = Ok low_rank_advi.
Proof.
  apply new_Ok. split; [apply coin_keys|].
  split; [apply coin_batch_rank_sum|]. by split.
Qed.

(** X3 on the low-rank instance: the builder got the rank 2. *)
Lemma new_builder_dispatch_witness :
  new coin_prior coin_bijector coin_log_likelihood "low_rank" (Some 2%Z)
    None = Ok low_rank_advi
  ∧ ∃ r, Some 2%Z = Some r
         ∧ surrogate_attrs low_rank_advi
           = Some (get_low_rank
                     (inverse_transform_dist coin_prior coin_bijector)
                     (Some r) None).
Proof.
  split; [apply low_rank_advi_new|].
  exact (proj1 (proj2 (new_builder_dispatch (E:=externals) coin_prior
                         coin_bijector coin_log_likelihood "low_rank"
                         (Some 2%Z) None low_rank_advi low_rank_advi_new))
           eq_refl).
Defined.



(** X7 on the coin-toss model with a likelihood that takes no keyword
    argument into account: an entry beside ["posterior"]. *)
Lemma params_read_through_posterior_entry_witness :
  fitted !! "posterior" = (<[ "noise" := 3%Z ]> fitted) !! "posterior"
  ∧ apply fitted plain_advi = apply (<[ "noise" := 3%Z ]> fitted) plain_advi
  ∧ fst (loss_fn fitted tosses 7%Z 10%Z 4 None plain_advi)
    = fst (loss_fn (<[ "noise" := 3%Z ]> fitted) tosses 7%Z 10%Z 4 None
             plain_advi).
Proof.
  assert (fitted !! "posterior" = (<[ "noise" := 3%Z ]> fitted) !! "posterior")
    as Hraw by (by rewrite lookup_insert_ne).
  assert (∀ (gll : likelihood) t,
            self_get_log_likelihood plain_advi = Some gll →
            gll t 7%Z tosses fitted
            = gll t 7%Z tosses (<[ "noise" := 3%Z ]> fitted)) as Hg
    by (by intros gll t [= <-]).
  split; [apply Hraw|].
  exact (params_read_through_posterior_entry (E:=externals) plain_advi fitted
           (<[ "noise" := 3%Z ]> fitted) tosses 7%Z 10%Z 4 None Hraw Hg).
Defined.

(** X8 on the coin-toss model after [self.posterior] was assigned. *)
Lemma loss_fn_apply_read_five_attributes_witness :
  self_posterior retemplated_advi ≠ self_posterior coin_advi
  ∧ fst (loss_fn fitted tosses 7%Z 10%Z 4 None retemplated_advi)
    = fst (loss_fn fitted tosses 7%Z 10%Z 4 None coin_advi)
  ∧ fst (apply fitted retemplated_advi) = fst (apply fitted coin_advi).
Proof.
  split.
  { destruct (constructed_attrs (E:=externals) _ _ _ _ _ _ _ _ _ _
                coin_advi_new coin_builder) as (_ & _ & _ & -> & _).
    change (self_posterior retemplated_advi) with (Some (mkDist [] 9)).
    unfold coin_posterior. by intros [=]. }
  exact (loss_fn_apply_read_five_attributes (E:=externals) retemplated_advi
           coin_advi fitted tosses 7%Z 10%Z 4 None eq_refl eq_refl eq_refl
           eq_refl eq_refl).
Defined.

(** X10 on the nested prior: the path [group], [rate] ends at a
    distribution with batch shape [2; 3]. *)
Lemma check_prior_zero_batch_paths_witness :
  self_prior nested_advi = Some nested_prior
  ∧ tree_lookup ["group"; "rate"] (Dict nested_prior)
    = Some (Leaf (mkDist [2; 3] 1))
  ∧ check_prior_zero_batch nested_advi
    = (Err ZeroBatchViolation, nested_advi).
Proof.
  assert (self_prior nested_advi = Some nested_prior) as Hp by done.
  assert (tree_lookup ["group"; "rate"] (Dict nested_prior)
          = Some (Leaf (mkDist [2; 3] 1))) as Hpath by (by vm_compute).
  split; [apply Hp|]. split; [apply Hpath|].
  apply (proj2 (check_prior_zero_batch_paths (E:=externals) nested_advi
                  nested_prior Hp)).
  exists ["group"; "rate"], (mkDist [2; 3] 1). by split.
Defined.

(** X11 on the coin-toss instance: a second [__init__] with a batched
    prior fails and leaves the instance with the new prior and the old
    bijector. *)
Lemma init_method_on_instance_witness :
  dom coin_bijector = dom batched_prior
  ∧ batch_rank_sum batched_prior ≠ 0
  ∧ __init__ batched_prior coin_bijector coin_log_likelihood "mean_field"
      None None coin_advi
    = (Err ZeroBatchViolation, snd (set_prior batched_prior coin_advi)).
Proof.
  assert (dom coin_bijector = dom batched_prior) as Hk
    by (unfold coin_bijector, batched_prior; by rewrite !dom_singleton_L).
  assert (batch_rank_sum batched_prior ≠ 0) as Hsum
    by (rewrite batched_batch_rank_sum; lia).
  split; [apply Hk|]. split; [apply Hsum|].
  exact (proj1 (proj2 (init_method_on_instance (E:=externals) batched_prior
                         coin_bijector coin_log_likelihood "mean_field" None
                         None coin_advi)) Hk Hsum).
Defined.

(** X9 on the empty model with the default arguments. *)
Lemma new_empty_prior_witness :
  rank_consistent "mean_field" None
  ∧ new ∅ ∅ coin_log_likelihood "mean_field" None None
    = Ok (constructed ∅ ∅ coin_log_likelihood "mean_field" None None).
Proof.
  assert (rank_consistent "mean_field" None) as Hr by (by split).
  split; [apply Hr|].
  exact (proj1 (new_empty_prior (E:=externals) coin_log_likelihood
                  "mean_field" None None) Hr).
Defined.


End more_examples.
